(** * intelliRoute: the feedback-analysis view, [core/views.py]

    A shallow embedding of [analyze_feedback] and of the module-level
    tables it reads, followed by the properties stated for it.

    Conventions of the embedding.
    - A Python value that came out of [json.loads] / [response.json()]
      is a [pyval].  Numbers are exact: an [int] is a [Z], a finite
      [float] is the rational it denotes, so [<] and [==] on numbers are
      the comparisons of [Q].
    - A Python [str] is the Rocq [string] of its UTF-8 encoding, so a
      character is one to four bytes long and the order of strings is
      the order of their code points.  [str.strip] knows every
      whitespace character of Python; [str.title], whose case mapping
      is that of the interpreter's Unicode database, is taken from the
      world the view runs in.
    - Code that can raise returns a [result]; the view itself runs in the
      monad [M], which also records every call made to a collaborator
      (the inference client, the HTTP endpoint, the document store). *)

From Stdlib Require Import ZArith QArith List String Ascii Bool Lia DecimalString.
Import ListNotations.

Set Warnings "-register-all".

Local Open Scope string_scope.
Local Open Scope Z_scope.

(* ================================================================= *)
(** ** Python values and exceptions *)

Module Py.

Inductive pyval : Type :=
| PNone
| PBool (b : bool)
| PInt (z : Z)
| PFloat (q : Q)
| PStr (s : string)
| PList (l : list pyval)
| PDict (d : list (string * pyval)).

(** [type(v).__name__], as it appears in interpreter error messages. *)
Definition type_name (v : pyval) : string :=
  match v with
  | PNone => "NoneType"
  | PBool _ => "bool"
  | PInt _ => "int"
  | PFloat _ => "float"
  | PStr _ => "str"
  | PList _ => "list"
  | PDict _ => "dict"
  end.

(** The exception classes the view's [except] clauses tell apart.
    An [HTTPError] carries [e.response.status_code] and
    [e.response.text], or its [response] is [None]
    ([HTTPError_without_response], as for a timeout of the inference
    client); every exception carries [str(e)]. *)
Inductive exn : Type :=
| JSONDecodeError (msg : string)
| HTTPError (status_code : Z) (text : string) (msg : string)
| HTTPError_without_response (msg : string)
| AttributeError (msg : string)
| TypeError (msg : string)
| OtherException (msg : string).

Definition str_of_exn (e : exn) : string :=
  match e with
  | JSONDecodeError m | HTTPError _ _ m | HTTPError_without_response m
  | AttributeError m | TypeError m | OtherException m => m
  end.

Inductive result (A : Type) : Type :=
| Ok (a : A)
| Raise (e : exn).
Arguments Ok {A} a.
Arguments Raise {A} e.

Definition rbind {A B} (r : result A) (k : A -> result B) : result B :=
  match r with
  | Ok a => k a
  | Raise e => Raise e
  end.

Notation "x <-- c ; k" := (rbind c (fun x => k))
  (at level 61, c at next level, right associativity).

Definition no_attribute (v : pyval) (attr : string) : exn :=
  AttributeError ("'" ++ type_name v ++ "' object has no attribute '" ++ attr ++ "'").

(** Truth value of a Python object in a boolean context. *)
Definition truthy (v : pyval) : bool :=
  match v with
  | PNone => false
  | PBool b => b
  | PInt z => negb (z =? 0)
  | PFloat q => negb (Qeq_bool q 0)
  | PStr s => negb (s =? "")%string
  | PList l => match l with [] => false | _ => true end
  | PDict d => match d with [] => false | _ => true end
  end.

(** ** Dictionaries with string keys *)

Fixpoint lookup {V} (k : string) (d : list (string * V)) : option V :=
  match d with
  | [] => None
  | (k', v) :: d' => if (k =? k')%string then Some v else lookup k d'
  end.

(** [d.get(k, default)] on a dict. *)
Definition dict_get (d : list (string * pyval)) (k : string) (default : pyval) : pyval :=
  match lookup k d with
  | Some v => v
  | None => default
  end.

(** [x.get(k, default)] on an arbitrary value: only a dict has [get]. *)
Definition py_get (x : pyval) (k : string) (default : pyval) : result pyval :=
  match x with
  | PDict d => Ok (dict_get d k default)
  | _ => Raise (no_attribute x "get")
  end.

(** [del d[k]] for a key known to be present, and [d.copy()]. *)
Fixpoint dict_del {V} (k : string) (d : list (string * V)) : list (string * V) :=
  match d with
  | [] => []
  | (k', v) :: d' => if (k =? k')%string then d' else (k', v) :: dict_del k d'
  end.

Definition keys {V} (d : list (string * V)) : list string := map fst d.

(** ** Comparison of values *)

(** Numbers ([bool] is a subclass of [int]). *)
Definition num_of (v : pyval) : option Q :=
  match v with
  | PBool b => Some (if b then 1%Q else 0%Q)
  | PInt z => Some (inject_Z z)
  | PFloat q => Some q
  | _ => None
  end.

(** [a == b]. *)
Fixpoint py_eq (a b : pyval) {struct a} : bool :=
  match a, b with
  | PNone, PNone => true
  | PStr s, PStr t => (s =? t)%string
  | PList xs, PList ys =>
      (fix go (xs ys : list pyval) : bool :=
         match xs, ys with
         | [], [] => true
         | x :: xs', y :: ys' => py_eq x y && go xs' ys'
         | _, _ => false
         end) xs ys
  | PDict d, PDict e =>
      (List.length d =? List.length e)%nat &&
      (fix go (d : list (string * pyval)) : bool :=
         match d with
         | [] => true
         | (k, v) :: d' =>
             match lookup k e with
             | Some w => py_eq v w
             | None => false
             end && go d'
         end) d
  | _, _ =>
      match num_of a, num_of b with
      | Some x, Some y => Qeq_bool x y
      | _, _ => false
      end
  end.

Definition not_supported (op : string) (a b : pyval) : exn :=
  TypeError ("'" ++ op ++ "' not supported between instances of '"
             ++ type_name a ++ "' and '" ++ type_name b ++ "'").

(** The ordering behind [a < b] and [a > b]: numbers by value, strings
    and lists lexicographically (a list comparison looks for the first
    pair of elements that are not [==]); anything else is the [TypeError]
    of the operator [op] being evaluated. *)
Fixpoint py_compare (op : string) (a b : pyval) {struct a} : result comparison :=
  match a, b with
  | PStr s, PStr t => Ok (String.compare s t)
  | PList xs, PList ys =>
      (fix go (xs ys : list pyval) : result comparison :=
         match xs, ys with
         | [], [] => Ok Eq
         | [], _ :: _ => Ok Lt
         | _ :: _, [] => Ok Gt
         | x :: xs', y :: ys' =>
             if py_eq x y then go xs' ys' else py_compare op x y
         end) xs ys
  | _, _ =>
      match num_of a, num_of b with
      | Some x, Some y => Ok (x ?= y)%Q
      | _, _ => Raise (not_supported op a b)
      end
  end.

Definition py_lt (a b : pyval) : result bool :=
  c <-- py_compare "<" a b;
  Ok (match c with Lt => true | _ => false end).

Definition py_gt (a b : pyval) : result bool :=
  c <-- py_compare ">" a b;
  Ok (match c with Gt => true | _ => false end).

(** ** Strings *)

Definition bytes (l : list nat) : string :=
  string_of_list_ascii (map ascii_of_nat l).

(** The characters [str.isspace] holds of, each in UTF-8:
    U+0009..U+000D, U+001C..U+0020, U+0085, U+00A0, U+1680,
    U+2000..U+200A, U+2028, U+2029, U+202F, U+205F, U+3000. *)
Definition whitespace : list string :=
  map bytes
      [[9]; [10]; [11]; [12]; [13]; [28]; [29]; [30]; [31]; [32];
       [194; 133]; [194; 160]; [225; 154; 128];
       [226; 128; 128]; [226; 128; 129]; [226; 128; 130]; [226; 128; 131];
       [226; 128; 132]; [226; 128; 133]; [226; 128; 134]; [226; 128; 135];
       [226; 128; 136]; [226; 128; 137]; [226; 128; 138];
       [226; 128; 168]; [226; 128; 169]; [226; 128; 175];
       [226; 129; 159]; [227; 128; 128]]%nat.

(** [ch.isspace()] for a single character [ch]. *)
Definition is_space (ch : string) : bool := existsb (String.eqb ch) whitespace.

(** [s.lstrip()]: the whitespace characters at the front are dropped;
    they are one, two or three bytes long. *)
Fixpoint lstrip (s : string) : string :=
  match s with
  | EmptyString => EmptyString
  | String c1 s1 =>
      if is_space (String c1 EmptyString) then lstrip s1
      else
        match s1 with
        | EmptyString => s
        | String c2 s2 =>
            if is_space (String c1 (String c2 EmptyString)) then lstrip s2
            else
              match s2 with
              | EmptyString => s
              | String c3 s3 =>
                  if is_space (String c1 (String c2 (String c3 EmptyString)))
                  then lstrip s3
                  else s
              end
        end
  end.

(** [s.rstrip()]: the longest end of [s] made of whitespace only is
    dropped. *)
Fixpoint rstrip (s : string) : string :=
  match s with
  | EmptyString => EmptyString
  | String c s' => if (lstrip s =? "")%string then EmptyString else String c (rstrip s')
  end.

(** [s.strip()]. *)
Definition strip (s : string) : string := rstrip (lstrip s).

(** ASCII letters. *)
Definition is_upper (c : ascii) : bool :=
  let n := nat_of_ascii c in ((65 <=? n) && (n <=? 90))%nat.

Definition is_lower (c : ascii) : bool :=
  let n := nat_of_ascii c in ((97 <=? n) && (n <=? 122))%nat.

Definition to_upper (c : ascii) : ascii :=
  if is_lower c then ascii_of_nat (nat_of_ascii c - 32) else c.

Definition to_lower (c : ascii) : ascii :=
  if is_upper c then ascii_of_nat (nat_of_ascii c + 32) else c.

(** [s.title()] for a string [s] of ASCII characters: a letter is
    upper-cased when the previous character is not a letter and
    lower-cased when it is.  The labels of the sentiment model
    (POSITIVE, NEGATIVE) are such strings; the sample worlds use it. *)
Fixpoint ascii_title_from (previous_is_cased : bool) (s : string) : string :=
  match s with
  | EmptyString => EmptyString
  | String c s' =>
      String (if previous_is_cased then to_lower c else to_upper c)
             (ascii_title_from (is_upper c || is_lower c) s')
  end.

Definition ascii_title (s : string) : string := ascii_title_from false s.

End Py.

(* ================================================================= *)
(** ** Collaborators of the view *)

Module Env.
Import Py.

(** An object handed back by the inference client (a
    [SummarizationOutput], a [TextClassificationOutputElement], or
    whatever else the call produced): its class name, its truth value
    and the attributes it has. *)
Record pyobject : Type := {
  class_name : string;
  is_truthy : bool;
  attrs : list (string * pyval)
}.

Definition hasattr (o : pyobject) (a : string) : bool :=
  match lookup a (attrs o) with Some _ => true | None => false end.

Definition getattr (o : pyobject) (a : string) : result pyval :=
  match lookup a (attrs o) with
  | Some v => Ok v
  | None => Raise (AttributeError ("'" ++ class_name o
                     ++ "' object has no attribute '" ++ a ++ "'"))
  end.

(** What [client.text_classification] returned: a list of objects, or
    some object that is not a list. *)
Inductive hf_value : Type :=
| HFList (l : list pyobject)
| HFObject (o : pyobject).

Definition string_of_Z (z : Z) : string := NilZero.string_of_int (Z.to_int z).

(** A [requests.Response]: [json] is the outcome of [response.json()]. *)
Record Response : Type := {
  status_code : Z;
  reason : string;
  url : string;
  text : string;
  json : result pyval
}.

(** [response.raise_for_status()]: an [HTTPError] for 4xx and 5xx. *)
Definition raise_for_status (r : Response) : result unit :=
  let s := status_code r in
  if (400 <=? s) && (s <? 500) then
    Raise (HTTPError s (text r)
             (string_of_Z s ++ " Client Error: " ++ reason r ++ " for url: " ++ url r))
  else if (500 <=? s) && (s <? 600) then
    Raise (HTTPError s (text r)
             (string_of_Z s ++ " Server Error: " ++ reason r ++ " for url: " ++ url r))
  else Ok tt.

(** A value stored in [response_data]: JSON-like data, or the
    [firestore.SERVER_TIMESTAMP] sentinel. *)
Inductive field : Type :=
| Value (v : pyval)
| SERVER_TIMESTAMP.

Definition document : Type := list (string * field).

(** The world a request runs in.  [str_title] is [str.title] of the
    interpreter.  [db] is the module-level Firestore handle ([None] when
    initialisation failed); applied to a collection path and a document
    it is the outcome of [tickets_ref.add]. *)
Record World : Type := {
  str_title : string -> string;
  HF_API_TOKEN : string;
  summarization : string -> string -> result pyobject;
  text_classification : string -> string -> result hf_value;
  requests_post : string -> list (string * string) -> pyval -> result Response;
  db : option (list string -> document -> result unit)
}.

(** Calls made to collaborators, in the order they are made. *)
Inductive event : Type :=
| CallSummarization (text model : string)
| CallTextClassification (text model : string)
| CallPost (url : string) (headers : list (string * string)) (payload : pyval)
| CallAdd (path : list string) (doc : document).

(** Computations that may raise and that log their calls. *)
Definition M (A : Type) : Type := (result A * list event)%type.

Definition ret {A} (a : A) : M A := (Ok a, []).
Definition raise {A} (e : exn) : M A := (Raise e, []).
Definition lift {A} (r : result A) : M A := (r, []).
Definition call {A} (ev : event) (r : result A) : M A := (r, [ev]).

Definition bind {A B} (m : M A) (k : A -> M B) : M B :=
  match m with
  | (Ok a, t) => let (r, t') := k a in (r, (t ++ t')%list)
  | (Raise e, t) => (Raise e, t)
  end.

End Env.

Declare Scope view_scope.
Delimit Scope view_scope with view.
Notation "x <- c ;; k" := (Env.bind c (fun x => k))
  (at level 61, c at next level, right associativity) : view_scope.
Notation "c ;; k" := (Env.bind c (fun _ => k))
  (at level 61, right associativity) : view_scope.

(* ================================================================= *)
(** ** [core/views.py] *)

Module Views.
Import Py Env.
Local Open Scope view_scope.

Definition MODEL_SUMMARIZATION : string := "sshleifer/distilbart-cnn-12-6".
Definition MODEL_SENTIMENT : string :=
  "distilbert/distilbert-base-uncased-finetuned-sst-2-english".
Definition MODEL_ZERO_SHOT : string := "facebook/bart-large-mnli".

Definition CLASSIFIER_LABELS : list string :=
  ["Urgent"; "Billing"; "Technical Support"; "Bug Report";
   "Feature Request"; "Praise"; "General Feedback"].

Definition PRIORITY_ORDER : list string :=
  ["Urgent"; "Billing"; "Technical Support"; "Bug Report";
   "Feature Request"; "Praise"; "General Feedback"].

Fixpoint enumerate_from {A} (index : Z) (l : list A) : list (Z * A) :=
  match l with
  | [] => []
  | x :: l' => (index, x) :: enumerate_from (index + 1) l'
  end.

Definition enumerate {A} (l : list A) : list (Z * A) := enumerate_from 0 l.

(** [{label: index for index, label in enumerate(PRIORITY_ORDER)}] *)
Definition PRIORITY_MAP : list (string * Z) :=
  map (fun '(index, label) => (label, index)) (enumerate PRIORITY_ORDER).

(** [PRIORITY_MAP.get(key, default)].  The keys of the map are strings,
    so a key of another hashable type is never found; a list or a dict
    cannot be hashed. *)
Definition PRIORITY_MAP_get (key : pyval) (default : Z) : result Z :=
  match key with
  | PStr s => Ok (match lookup s PRIORITY_MAP with Some i => i | None => default end)
  | PList _ | PDict _ => Raise (TypeError ("unhashable type: '" ++ type_name key ++ "'"))
  | _ => Ok default
  end.

(** *** [list.sort(key=..., reverse=True)]

    The keys of all elements are computed first.  The elements are then
    arranged by decreasing key, elements with equal keys keeping their
    original order; only [<] is used on keys.  When the keys can all be
    compared with one another this arrangement is unique, whatever the
    order in which the interpreter compares them.  It is computed here
    by insertion from the right, and a comparison that raises aborts
    the sort; for one or two elements these are the comparisons CPython
    makes, for more elements with keys that cannot be compared CPython
    may meet another such pair first and name other types in the
    [TypeError]. *)
Section Sort.
Context {A : Type}.

Fixpoint compute_keys (key : A -> result pyval) (l : list A)
  : result (list (pyval * A)) :=
  match l with
  | [] => Ok []
  | x :: l' =>
      k <-- key x;
      ks <-- compute_keys key l';
      Ok ((k, x) :: ks)
  end.

Fixpoint insert_desc (x : pyval * A) (l : list (pyval * A))
  : result (list (pyval * A)) :=
  match l with
  | [] => Ok [x]
  | y :: l' =>
      lt <-- py_lt (fst x) (fst y);
      if lt : bool then (r <-- insert_desc x l'; Ok (y :: r))
      else Ok (x :: y :: l')
  end.

Fixpoint sort_desc (l : list (pyval * A)) : result (list (pyval * A)) :=
  match l with
  | [] => Ok []
  | x :: l' => s <-- sort_desc l'; insert_desc x s
  end.

Definition list_sort_reverse (key : A -> result pyval) (l : list A)
  : result (list A) :=
  ks <-- compute_keys key l;
  s <-- sort_desc ks;
  Ok (map snd s).

(** [max(l, key=...)] on a non-empty list: the first element whose key
    no later element exceeds; [>] is the only comparison used. *)
Fixpoint max_from (key : A -> result pyval) (best : A) (best_key : pyval)
         (l : list A) : result A :=
  match l with
  | [] => Ok best
  | x :: l' =>
      k <-- key x;
      gt <-- py_gt k best_key;
      if gt : bool then max_from key x k l' else max_from key best best_key l'
  end.

Definition py_max (key : A -> result pyval) (l : list A) : result A :=
  match l with
  | [] => Raise (OtherException "max() arg is an empty sequence")
  | x :: l' => k <-- key x; max_from key x k l'
  end.
End Sort.

(** *** Post-processing of the three results (lines 137-163) *)

(** Lines 138-140. *)
Definition process_summary (summary : pyobject) : pyval :=
  if is_truthy summary && hasattr summary "summary_text" then
    match lookup "summary_text" (attrs summary) with
    | Some v => v
    | None => PStr "Analysis failed."
    end
  else PStr "Analysis failed.".

(** [v.title()]; [title] is [str.title]. *)
Definition py_title (title : string -> string) (v : pyval) : result string :=
  match v with
  | PStr s => Ok (title s)
  | _ => Raise (no_attribute v "title")
  end.

(** Lines 143-146. *)
Definition process_sentiment (title : string -> string) (sentiment : hf_value)
  : result string :=
  match sentiment with
  | HFList ((_ :: _) as l) =>
      top <-- py_max (fun x => getattr x "score") l;
      label <-- getattr top "label";
      py_title title label
  | _ => Ok "Neutral"
  end.

(** [lambda x: x.get('score', 0)] *)
Definition score_key (x : pyval) : result pyval := py_get x "score" (PInt 0).

(** Lines 149-163: the selected tag and its priority rank. *)
Definition select_tag (tags : pyval) : result (pyval * Z) :=
  let processed_tag := PStr "General Feedback" in
  let processed_rank := 100 in
  match tags with
  | PList ((PDict _ :: _) as tags) =>
      tags <-- list_sort_reverse score_key tags;
      match tags with
      | [] => Raise (OtherException "list index out of range")
      | tags_0 :: _ =>
          top_tag <-- py_get tags_0 "label" PNone;
          if truthy top_tag then
            processed_rank <-- PRIORITY_MAP_get top_tag 100;
            Ok (top_tag, processed_rank)
          else Ok (processed_tag, processed_rank)
      end
  | _ => Ok (processed_tag, processed_rank)
  end.

(** *** The view *)

(** An inbound request: its method and the outcome of
    [json.loads(request.body)]. *)
Record HttpRequest : Type := {
  method : string;
  body : result pyval
}.

Record JsonResponse : Type := {
  content : list (string * pyval);
  status : Z
}.

Definition error_response (message : string) (status : Z) : JsonResponse :=
  {| content := [("error", PStr message)]; status := status |}.

(** [JsonResponse(data)]: the sentinel cannot be serialised. *)
Fixpoint dumps (data : document) : result (list (string * pyval)) :=
  match data with
  | [] => Ok []
  | (k, Value v) :: data' => r <-- dumps data'; Ok ((k, v) :: r)
  | (k, SERVER_TIMESTAMP) :: _ =>
      Raise (TypeError "Object of type Sentinel is not JSON serializable")
  end.

Definition json_response (data : document) : result JsonResponse :=
  c <-- dumps data; Ok {| content := c; status := 200 |}.

(** [try: m except Exception as e: handler(e)]; what the handler
    raises is raised by the whole statement. *)
Definition try_except {A} (m : M A) (handler : exn -> result A) : M A :=
  match m with
  | (Ok a, t) => (Ok a, t)
  | (Raise e, t) => (handler e, t)
  end.

Definition API_URL : string :=
  "https://router.huggingface.co/hf-inference/models/facebook/bart-large-mnli".

(** Lines 128-131. *)
Definition tags_payload (text_input : string) : pyval :=
  PDict [("inputs", PStr text_input);
         ("parameters",
          PDict [("candidate_labels", PList (map PStr CLASSIFIER_LABELS))])].

(** [db.collection('user_tickets').document(demo_user_id).collection('tickets')] *)
Definition demo_user_id : string := "demo_user".
Definition tickets_ref : list string := ["user_tickets"; demo_user_id; "tickets"].

Section View.
Variable w : World.

Definition headers : list (string * string) :=
  [("Authorization", "Bearer " ++ HF_API_TOKEN w)].

(** Lines 123-126. *)
Definition query (payload : pyval) : M pyval :=
  response <- call (CallPost API_URL headers payload)
                   (requests_post w API_URL headers payload);;
  lift (raise_for_status response);;
  lift (json response).

(** Lines 181-191: the write is attempted when [db] is set, and
    whatever it raises is printed and dropped. *)
Definition save (response_data : document) : M unit :=
  try_except
    match db w with
    | Some add =>
        call (CallAdd tickets_ref response_data) (add tickets_ref response_data)
    | None => ret tt
    end
    (fun _ => Ok tt).

(** Lines 92-193, the body of the outer [try]. *)
Definition analyze_feedback_try (request : HttpRequest) : M JsonResponse :=
  data <- lift (body request);;
  text_input <- lift (py_get data "text" (PStr ""));;
  match text_input with
  | PStr text_input =>
      if (strip text_input =? "")%string then
        ret (error_response "Text input cannot be empty" 400)
      else
        summary <- call (CallSummarization text_input MODEL_SUMMARIZATION)
                        (summarization w text_input MODEL_SUMMARIZATION);;
        sentiment <- call (CallTextClassification text_input MODEL_SENTIMENT)
                          (text_classification w text_input MODEL_SENTIMENT);;
        tags <- query (tags_payload text_input);;
        let processed_summary := process_summary summary in
        processed_sentiment <- lift (process_sentiment (str_title w) sentiment);;
        selected <- lift (select_tag tags);;
        let '(processed_tag, processed_rank) := selected in
        let response_data : document :=
          [("summary", Value processed_summary);
           ("sentiment", Value (PStr processed_sentiment));
           ("tags", Value (PList [processed_tag]));
           ("priority_rank", Value (PInt processed_rank));
           ("timestamp", SERVER_TIMESTAMP)] in
        let response_data_for_json := dict_del "timestamp" response_data in
        save response_data;;
        lift (json_response response_data_for_json)
  | _ => raise (no_attribute text_input "strip")
  end.

(** Lines 195-201, the [except] clauses.  The clause for [HTTPError]
    reads [e.response.status_code]; when [e.response] is [None] that
    raises, and nothing is returned. *)
Definition analyze_feedback_except (e : exn) : result JsonResponse :=
  match e with
  | JSONDecodeError _ => Ok (error_response "Invalid JSON in request body" 400)
  | HTTPError status_code text _ =>
      Ok (error_response
            ("Hugging Face API Error: " ++ string_of_Z status_code ++ " - " ++ text)
            status_code)
  | HTTPError_without_response _ =>
      Raise (AttributeError "'NoneType' object has no attribute 'status_code'")
  | _ => Ok (error_response ("An unexpected error occurred: " ++ str_of_exn e) 500)
  end.

(** The view: the response it returns, or the exception it raises, and
    the calls it made. *)
Definition analyze_feedback (request : HttpRequest) : M JsonResponse :=
  if negb (method request =? "POST")%string then
    ret (error_response "Only POST requests are allowed" 405)
  else
    try_except (analyze_feedback_try request) analyze_feedback_except.
End View.

End Views.

(* ================================================================= *)
(** ** Facts about the Python layer *)

Module PyFacts.
Import Py.

Lemma py_compare_numbers op a b x y :
  num_of a = Some x -> num_of b = Some y ->
  py_compare op a b = Ok (x ?= y)%Q.
Proof.
  intros Ha Hb.
  destruct a; try discriminate Ha; destruct b; try discriminate Hb;
    simpl in *; congruence.
Qed.

Lemma py_lt_numbers a b x y :
  num_of a = Some x -> num_of b = Some y ->
  (py_lt a b = Ok true /\ (x < y)%Q) \/ (py_lt a b = Ok false /\ (y <= x)%Q).
Proof.
  intros Ha Hb. unfold py_lt.
  rewrite (py_compare_numbers "<" a b x y Ha Hb). simpl.
  destruct (x ?= y)%Q eqn:E.
  - right. split; [reflexivity|]. apply Qeq_alt in E. rewrite E. apply Qle_refl.
  - left. split; [reflexivity|]. now apply Qlt_alt.
  - right. split; [reflexivity|]. apply Qgt_alt in E. now apply Qlt_le_weak.
Qed.

Lemma py_gt_numbers a b x y :
  num_of a = Some x -> num_of b = Some y ->
  (py_gt a b = Ok true /\ (y < x)%Q) \/ (py_gt a b = Ok false /\ (x <= y)%Q).
Proof.
  intros Ha Hb. unfold py_gt.
  rewrite (py_compare_numbers ">" a b x y Ha Hb). simpl.
  destruct (x ?= y)%Q eqn:E.
  - right. split; [reflexivity|]. apply Qeq_alt in E. rewrite E. apply Qle_refl.
  - right. split; [reflexivity|]. apply Qlt_alt in E. now apply Qlt_le_weak.
  - left. split; [reflexivity|]. now apply Qgt_alt.
Qed.

(** A string made of whitespace characters only. *)
Inductive blank : string -> Prop :=
| blank_nil : blank ""
| blank_cons (ch s : string) : In ch whitespace -> blank s -> blank (ch ++ s).

Lemma append_nil_r (s : string) : (s ++ "")%string = s.
Proof. induction s as [|c s IH]; simpl; [reflexivity|now rewrite IH]. Qed.

Lemma append_assoc (a b c : string) : ((a ++ b) ++ c)%string = (a ++ (b ++ c))%string.
Proof. induction a as [|x a IH]; simpl; [reflexivity|now rewrite IH]. Qed.

Lemma is_space_In (ch : string) : is_space ch = true -> In ch whitespace.
Proof.
  unfold is_space. intros H. apply existsb_exists in H.
  destruct H as (x & Hx & E). apply String.eqb_eq in E. now subst.
Qed.

Lemma lstrip_whitespace (ch s : string) :
  In ch whitespace -> lstrip (ch ++ s) = lstrip s.
Proof.
  intros H. unfold whitespace in H. simpl in H.
  repeat (destruct H as [H|H]; [subst ch; reflexivity|]). contradiction.
Qed.

Lemma lstrip_blank (s : string) : blank s -> lstrip s = "".
Proof.
  induction 1 as [|ch s Hch _ IH]; [reflexivity|].
  now rewrite lstrip_whitespace.
Qed.

Lemma blank_app (p s : string) : blank p -> blank s -> blank (p ++ s).
Proof.
  induction 1 as [|ch p Hch _ IH]; intros Hs; [assumption|].
  rewrite append_assoc. constructor; [assumption|now apply IH].
Qed.

Lemma blank_one (ch : string) : In ch whitespace -> blank ch.
Proof.
  intros H. rewrite <- (append_nil_r ch). constructor; [assumption|constructor].
Qed.

(** What [lstrip] drops is whitespace. *)
Lemma lstrip_suffix (s : string) : exists p, s = (p ++ lstrip s)%string /\ blank p.
Proof.
  assert (Hn : forall n s, (String.length s <= n)%nat ->
                           exists p, s = (p ++ lstrip s)%string /\ blank p).
  { clear s. induction n as [|n IH]; intros s Hlen.
    - destruct s; [|simpl in Hlen; lia]. exists ""%string. split; constructor.
    - destruct s as [|c1 s1]; [exists ""%string; split; constructor|].
      cbn [lstrip]. simpl in Hlen.
      destruct (is_space (String c1 "")) eqn:E1.
      { destruct (IH s1) as (p & Hp & Hb); [lia|].
        exists (String c1 "" ++ p)%string. split.
        - simpl. now rewrite <- Hp.
        - constructor; [now apply is_space_In|assumption]. }
      destruct s1 as [|c2 s2]; [exists ""%string; split; constructor|].
      simpl in Hlen.
      destruct (is_space (String c1 (String c2 ""))) eqn:E2.
      { destruct (IH s2) as (p & Hp & Hb); [lia|].
        exists (String c1 (String c2 "") ++ p)%string. split.
        - simpl. now rewrite <- Hp.
        - constructor; [now apply is_space_In|assumption]. }
      destruct s2 as [|c3 s3]; [exists ""%string; split; constructor|].
      simpl in Hlen.
      destruct (is_space (String c1 (String c2 (String c3 "")))) eqn:E3.
      { destruct (IH s3) as (p & Hp & Hb); [lia|].
        exists (String c1 (String c2 (String c3 "")) ++ p)%string. split.
        - simpl. now rewrite <- Hp.
        - constructor; [now apply is_space_In|assumption]. }
      exists ""%string. split; constructor. }
  apply (Hn (String.length s)). lia.
Qed.

Lemma lstrip_empty_iff (s : string) : lstrip s = "" <-> blank s.
Proof.
  split; [|apply lstrip_blank].
  intros H. destruct (lstrip_suffix s) as (p & Hp & Hb).
  rewrite H, append_nil_r in Hp. now subst.
Qed.

Lemma rstrip_empty_iff (s : string) : rstrip s = "" <-> lstrip s = "".
Proof.
  destruct s as [|c s]; [split; reflexivity|].
  cbn [rstrip]. destruct (String.eqb_spec (lstrip (String c s)) "") as [E|E].
  - split; [intros _; exact E|reflexivity].
  - split; [discriminate|intros H; contradiction].
Qed.

Lemma strip_blank (s : string) : blank s -> strip s = "".
Proof. intros H. unfold strip. now rewrite (lstrip_blank s H). Qed.

Lemma strip_empty_iff (s : string) : strip s = "" <-> blank s.
Proof.
  split; [|apply strip_blank].
  unfold strip. intros H. apply rstrip_empty_iff, lstrip_empty_iff in H.
  destruct (lstrip_suffix s) as (p & Hp & Hb). rewrite Hp.
  now apply blank_app.
Qed.

End PyFacts.

(* ================================================================= *)
(** ** Facts about [list.sort] and [max] on numeric keys *)

Module SortFacts.
Import Py Views PyFacts.

(** [c] is the first of the elements of [pre ++ c :: post] whose value
    under [q] is maximal. *)
Definition first_max {A} (q : A -> Q) (pre : list A) (c : A) (post : list A) : Prop :=
  Forall (fun p => (q p < q c)%Q) pre /\ Forall (fun p => (q p <= q c)%Q) post.

Lemma first_max_exists {A} (q : A -> Q) (l : list A) :
  l <> [] -> exists pre c post, l = (pre ++ c :: post)%list /\ first_max q pre c post.
Proof.
  induction l as [|x l IH]; intros Hne; [congruence|].
  destruct l as [|y l'].
  - exists [], x, []. split; [reflexivity|]. split; constructor.
  - destruct IH as (pre & c & post & Hl & Hpre & Hpost); [discriminate|].
    destruct (Qlt_le_dec (q x) (q c)) as [Hlt|Hle].
    + exists (x :: pre), c, post. split; [simpl; now rewrite Hl|].
      split; [constructor; assumption|assumption].
    + exists [], x, (y :: l'). split; [reflexivity|]. split; [constructor|].
      rewrite Hl. apply Forall_app. split.
      * eapply Forall_impl; [|exact Hpre]. simpl. intros a Ha.
        apply Qlt_le_weak. eapply Qlt_le_trans; eassumption.
      * constructor; [assumption|].
        eapply Forall_impl; [|exact Hpost]. simpl. intros a Ha.
        eapply Qle_trans; eassumption.
Qed.

Section Keyed.
Context {A : Type}.

(** Pairs (key, element) whose key is a number. *)
Definition numeric (p : pyval * A) : Prop := exists x, num_of (fst p) = Some x.

Definition qkey (p : pyval * A) : Q :=
  match num_of (fst p) with Some x => x | None => 0%Q end.

Lemma py_lt_keys (x y : pyval * A) :
  numeric x -> numeric y ->
  (py_lt (fst x) (fst y) = Ok true /\ (qkey x < qkey y)%Q) \/
  (py_lt (fst x) (fst y) = Ok false /\ (qkey y <= qkey x)%Q).
Proof.
  intros [a Ha] [b Hb]. unfold qkey. rewrite Ha, Hb.
  now apply py_lt_numbers.
Qed.

Lemma insert_desc_numeric (x : pyval * A) (l : list (pyval * A)) :
  numeric x -> Forall numeric l ->
  exists r, insert_desc x l = Ok r /\ Forall numeric r /\
            (forall y, In y r -> y = x \/ In y l) /\
            match l with
            | [] => r = [x]
            | h :: _ =>
                ((qkey x < qkey h)%Q -> exists r', r = h :: r') /\
                ((qkey h <= qkey x)%Q -> r = x :: l)
            end.
Proof.
  intros Hx Hl. induction Hl as [|h l Hh Hl IH]; simpl.
  - exists [x]. repeat split; auto. intros y [<-|[]]; auto.
  - destruct IH as (r & Hr & Hnum & Hin & _).
    destruct (py_lt_keys x h Hx Hh) as [[E Hlt]|[E Hle]]; rewrite E; simpl.
    + rewrite Hr. simpl. exists (h :: r). repeat split; auto.
      * intros y [<-|Hy]; [right; left; reflexivity|].
        destruct (Hin y Hy); [left|right; right]; assumption.
      * intros _. now exists r.
      * intros Hge. exfalso. eapply Qlt_irrefl, Qlt_le_trans; eassumption.
    + exists (x :: h :: l). repeat split; auto.
      * intros y [<-|Hy]; auto.
      * intros Hlt. exfalso. eapply Qlt_irrefl, Qlt_le_trans; eassumption.
Qed.

Lemma sort_desc_numeric (l : list (pyval * A)) :
  Forall numeric l ->
  exists s, sort_desc l = Ok s /\ Forall numeric s /\ (forall y, In y s -> In y l).
Proof.
  induction 1 as [|x l Hx Hl (s & Hs & Hnum & Hin)]; simpl.
  - exists []. repeat split; auto.
  - rewrite Hs. simpl.
    destruct (insert_desc_numeric x s Hx Hnum) as (r & Hr & Hrn & Hrin & _).
    exists r. repeat split; auto.
    intros y Hy. destruct (Hrin y Hy); [left; congruence|right; auto].
Qed.

(** The sorted list starts with the first maximal element. *)
Lemma sort_desc_head (pre : list (pyval * A)) c post :
  Forall numeric (pre ++ c :: post) ->
  first_max qkey pre c post ->
  exists rest, sort_desc (pre ++ c :: post) = Ok (c :: rest).
Proof.
  intros Hnum [Hpre Hpost].
  induction pre as [|x pre IH]; simpl in *.
  - inversion Hnum as [|? ? Hc Hp]; subst.
    destruct (sort_desc_numeric post Hp) as (s & Hs & Hsn & Hin).
    rewrite Hs. simpl.
    destruct (insert_desc_numeric c s Hc Hsn) as (r & Hr & _ & _ & Hhead).
    rewrite Hr. destruct s as [|h s'].
    + subst r. now exists [].
    + destruct Hhead as [_ Hge]. rewrite Hge; [now eexists|].
      rewrite Forall_forall in Hpost. apply Hpost, Hin. now left.
  - inversion Hnum as [|? ? Hx Hn]; subst.
    inversion Hpre as [|? ? Hxc Hpre']; subst.
    destruct (IH Hn Hpre') as (rest & Hs). rewrite Hs. cbn [rbind].
    destruct (sort_desc_numeric _ Hn) as (s & Hs' & Hsn & _).
    rewrite Hs in Hs'. injection Hs' as <-.
    destruct (insert_desc_numeric x (c :: rest) Hx Hsn) as (r & Hr & _ & _ & Hlt & _).
    rewrite Hr. destruct (Hlt Hxc) as (r' & ->). now eexists.
Qed.

Variable key : A -> result pyval.
Variable q : A -> Q.

(** Every element has a key, and the key is the number [q] gives. *)
Definition keyed (x : A) : Prop :=
  exists k, key x = Ok k /\ num_of k = Some (q x).

Lemma compute_keys_keyed (l : list A) :
  Forall keyed l ->
  exists ks, compute_keys key l = Ok ks /\ map snd ks = l /\
             Forall numeric ks /\ Forall (fun p => qkey p = q (snd p)) ks.
Proof.
  induction 1 as [|x l (k & Hk & Hq) Hl (ks & Hks & Hsnd & Hnum & Hqk)]; simpl.
  - exists []. repeat split; constructor.
  - rewrite Hk, Hks. simpl. exists ((k, x) :: ks). repeat split.
    + simpl. now rewrite Hsnd.
    + constructor; [now exists (q x)|assumption].
    + constructor; [unfold qkey; simpl; now rewrite Hq|assumption].
Qed.

Lemma list_sort_reverse_head (pre : list A) c post :
  Forall keyed (pre ++ c :: post) ->
  first_max q pre c post ->
  exists rest, list_sort_reverse key (pre ++ c :: post) = Ok (c :: rest).
Proof.
  intros Hk [Hpre Hpost]. unfold list_sort_reverse.
  destruct (compute_keys_keyed _ Hk) as (ks & Hks & Hsnd & Hnum & Hqk).
  rewrite Hks. simpl.
  apply map_eq_app in Hsnd. destruct Hsnd as (kpre & krest & -> & Hp1 & Hp2).
  apply map_eq_cons in Hp2. destruct Hp2 as (kc & kpost & -> & Hc & Hp3).
  apply Forall_app in Hqk. destruct Hqk as [Hq1 Hq2].
  inversion Hq2 as [|? ? Hqc Hq3]; subst.
  destruct (sort_desc_head kpre kc kpost Hnum) as (rest & Hs).
  { split.
    - rewrite Forall_forall in *. intros p Hp.
      rewrite (Hq1 p Hp), Hqc. apply Hpre. now apply in_map.
    - rewrite Forall_forall in *. intros p Hp.
      rewrite (Hq3 p Hp), Hqc. apply Hpost. now apply in_map. }
  rewrite Hs. simpl. now eexists.
Qed.

(** [max] returns the first maximal element. *)
Lemma max_from_first_max (l pre : list A) best best_key mid :
  key best = Ok best_key -> num_of best_key = Some (q best) ->
  Forall keyed l ->
  first_max q pre best mid ->
  exists pre' c post',
    (pre ++ best :: mid ++ l = pre' ++ c :: post')%list /\
    first_max q pre' c post' /\
    max_from key best best_key l = Ok c.
Proof.
  intros Hb Hbq Hl. revert pre best best_key mid Hb Hbq.
  induction Hl as [|x l (k & Hk & Hq) Hl IH]; intros pre best best_key mid Hb Hbq [Hpre Hmid].
  - exists pre, best, mid. rewrite app_nil_r. repeat split; auto.
  - simpl. rewrite Hk. simpl.
    destruct (py_gt_numbers k best_key _ _ Hq Hbq) as [[E Hlt]|[E Hle]]; rewrite E; simpl.
    + destruct (IH (pre ++ best :: mid)%list x k [] Hk Hq) as (pre' & c & post' & Heq & Hfm & Hm).
      { split; [|constructor]. apply Forall_app. split.
        - eapply Forall_impl; [|exact Hpre]. simpl. intros a Ha.
          eapply Qlt_trans; eassumption.
        - constructor; [assumption|].
          eapply Forall_impl; [|exact Hmid]. simpl. intros a Ha.
          eapply Qle_lt_trans; eassumption. }
      exists pre', c, post'. repeat split; try apply Hfm; auto.
      rewrite <- Heq. simpl. now rewrite <- !app_assoc.
    + destruct (IH pre best best_key (mid ++ [x])%list Hb Hbq) as (pre' & c & post' & Heq & Hfm & Hm).
      { split; [assumption|]. apply Forall_app. split; [assumption|].
        constructor; [assumption|constructor]. }
      exists pre', c, post'. repeat split; try apply Hfm; auto.
      rewrite <- Heq. now rewrite <- !app_assoc.
Qed.

Lemma py_max_first_max (pre : list A) c post :
  Forall keyed (pre ++ c :: post) ->
  first_max q pre c post ->
  py_max key (pre ++ c :: post) = Ok c.
Proof.
  intros Hk Hfm.
  destruct (pre ++ c :: post)%list as [|x l] eqn:El.
  { destruct pre; discriminate. }
  inversion Hk as [|? ? (k & Hkx & Hq) Hl]; subst. simpl. rewrite Hkx. simpl.
  destruct (max_from_first_max l [] x k [] Hkx Hq Hl) as (pre' & c' & post' & Heq & Hfm' & Hm).
  { split; constructor. }
  simpl in Heq. rewrite Hm. f_equal.
  (* the first maximum of a list is unique *)
  rewrite <- El in Heq. clear - Heq Hfm Hfm'.
  destruct Hfm as [H1 H2], Hfm' as [H1' H2'].
  revert pre' Heq H1'. induction pre as [|a pre IH]; intros [|a' pre'] Heq H1'; simpl in *.
  - congruence.
  - injection Heq as <- Heq. exfalso.
    assert (Hin : In c' post) by (rewrite Heq; apply in_elt).
    rewrite Forall_forall in H2. specialize (H2 _ Hin).
    apply Forall_inv in H1'.
    eapply Qlt_irrefl, Qlt_le_trans; eassumption.
  - injection Heq as <- Heq. exfalso.
    assert (Hin : In c post') by (rewrite <- Heq; apply in_elt).
    rewrite Forall_forall in H2'. specialize (H2' _ Hin).
    apply Forall_inv in H1.
    eapply Qlt_irrefl, Qlt_le_trans; eassumption.
  - injection Heq as <- Heq.
    apply (IH (Forall_inv_tail H1) pre' Heq (Forall_inv_tail H1')).
Qed.
End Keyed.

End SortFacts.

(* ================================================================= *)
(** ** Tag selection *)

Module TagSelection.
Import Py Views PyFacts SortFacts.

(** The confidence score of a candidate, 0 when the entry has none. *)
Definition score (c : pyval) : Q :=
  match c with
  | PDict d => match num_of (dict_get d "score" (PInt 0)) with
               | Some x => x
               | None => 0%Q
               end
  | _ => 0%Q
  end.

(** The label of a candidate, [None] when the entry has none. *)
Definition label (c : pyval) : pyval :=
  match c with
  | PDict d => dict_get d "label" PNone
  | _ => PNone
  end.

Definition hashable (v : pyval) : Prop :=
  match v with
  | PList _ | PDict _ => False
  | _ => True
  end.

(** A classification candidate: a dict whose score, when present, is a
    number and whose label, when present, is not a container. *)
Definition candidate (c : pyval) : Prop :=
  exists d, c = PDict d /\
            (exists x, num_of (dict_get d "score" (PInt 0)) = Some x) /\
            hashable (dict_get d "label" PNone).

(** The rank the priority table gives: the position of the label in
    [PRIORITY_ORDER], counted from 0, and 100 for anything not listed. *)
Fixpoint index_from (i : Z) (s : string) (l : list string) : option Z :=
  match l with
  | [] => None
  | x :: l' => if (s =? x)%string then Some i else index_from (i + 1) s l'
  end.

Definition priority_rank (v : pyval) : Z :=
  match v with
  | PStr s => match index_from 0 s PRIORITY_ORDER with
              | Some i => i
              | None => 100
              end
  | _ => 100
  end.

Lemma lookup_enumerate (s : string) (l : list string) (i : Z) :
  lookup s (map (fun '(index, lbl) => (lbl, index)) (enumerate_from i l))
  = index_from i s l.
Proof.
  revert i. induction l as [|x l IH]; intros i; simpl; [reflexivity|].
  destruct (s =? x)%string; [reflexivity|apply IH].
Qed.

Lemma PRIORITY_MAP_get_rank (v : pyval) :
  hashable v -> PRIORITY_MAP_get v 100 = Ok (priority_rank v).
Proof.
  destruct v as [| | | |s| |]; cbn [hashable]; try contradiction; intros _;
    [reflexivity|reflexivity|reflexivity|reflexivity|].
  change (Ok (match lookup s PRIORITY_MAP with Some i => i | None => 100 end)
          = Ok (priority_rank (PStr s))).
  unfold PRIORITY_MAP, enumerate, priority_rank. now rewrite lookup_enumerate.
Qed.

Lemma index_from_not_in (s : string) (l : list string) (i : Z) :
  ~ In s l -> index_from i s l = None.
Proof.
  revert i. induction l as [|x l IH]; intros i Hn; simpl; [reflexivity|].
  destruct (String.eqb_spec s x) as [->|_].
  - exfalso. apply Hn. now left.
  - apply IH. intros H. apply Hn. now right.
Qed.

Lemma candidate_keyed (c : pyval) :
  candidate c -> keyed score_key score c.
Proof.
  intros (d & -> & (x & Hx) & _). exists (dict_get d "score" (PInt 0)).
  split; [reflexivity|]. simpl. now rewrite Hx.
Qed.

(** What the selection returns, in terms of the first candidate of
    maximal score. *)
Lemma select_tag_top (pre : list pyval) (c : pyval) (post : list pyval) :
  Forall candidate (pre ++ c :: post) ->
  first_max score pre c post ->
  select_tag (PList (pre ++ c :: post)) =
  Ok (if truthy (label c) then label c else PStr "General Feedback",
      priority_rank (label c)).
Proof.
  intros Hc Hfm.
  assert (Hk : Forall (keyed score_key score) (pre ++ c :: post)).
  { eapply Forall_impl; [|exact Hc]. apply candidate_keyed. }
  destruct (list_sort_reverse_head score_key score pre c post Hk Hfm) as (rest & Hs).
  assert (Hcc : candidate c).
  { rewrite Forall_forall in Hc. apply Hc, in_elt. }
  destruct Hcc as (d & -> & _ & Hh).
  unfold select_tag.
  destruct (pre ++ PDict d :: post)%list as [|x l] eqn:El.
  { destruct pre; discriminate. }
  inversion Hc as [|? ? (dx & -> & _) _]; subst.
  rewrite Hs. cbn [rbind py_get label].
  destruct (truthy (dict_get d "label" PNone)) eqn:Et.
  - rewrite (PRIORITY_MAP_get_rank _ Hh). reflexivity.
  - f_equal. f_equal.
    destruct (dict_get d "label" PNone) as [| | | |s| |]; try reflexivity;
      try contradiction.
    simpl in Et. apply negb_false_iff in Et. apply String.eqb_eq in Et. now subst.
Qed.

(** C1.  For a non-empty sequence of candidates the selection is made
    by the first candidate of maximal score (an entry without a score
    counting as 0): every earlier candidate has a strictly smaller score
    and every later one a score not greater.  The returned rank is the
    priority-table rank of that candidate's label, and the returned tag
    is that label (the default tag when the candidate has no label). *)
Theorem select_tag_first_max (tags : list pyval) :
  tags <> [] ->
  Forall candidate tags ->
  exists pre c post,
    tags = (pre ++ c :: post)%list /\
    first_max score pre c post /\
    select_tag (PList tags) =
    Ok (if truthy (label c) then label c else PStr "General Feedback",
        priority_rank (label c)).
Proof.
  intros Hne Hc.
  destruct (first_max_exists score tags Hne) as (pre & c & post & -> & Hfm).
  exists pre, c, post. split; [reflexivity|]. split; [assumption|].
  now apply select_tag_top.
Qed.

(** C5.  Without a usable candidate (an empty sequence, something that
    is not a list, or a first element that is not a dict) the selection
    is the default pair. *)
Theorem select_tag_default (tags : pyval) :
  tags = PList [] \/
  (forall l, tags <> PList l) \/
  (exists x l, tags = PList (x :: l) /\ forall d, x <> PDict d) ->
  select_tag tags = Ok (PStr "General Feedback", 100).
Proof.
  intros [->|[H|(x & l & -> & H)]].
  - reflexivity.
  - destruct tags; try reflexivity. exfalso. now apply (H l).
  - destruct x; try reflexivity. exfalso. now apply (H d).
Qed.

(** C6, as the code has it.  When the label of the top-scoring candidate
    is non-empty and absent from the priority table, that label is
    returned with rank 100; when the top-scoring candidate has no label,
    or the label is [None] or empty, the default pair is returned. *)
Theorem select_tag_unlisted (pre : list pyval) (c : pyval) (post : list pyval) :
  Forall candidate (pre ++ c :: post) ->
  first_max score pre c post ->
  (truthy (label c) = true ->
   (forall s, label c = PStr s -> ~ In s PRIORITY_ORDER) ->
   select_tag (PList (pre ++ c :: post)) = Ok (label c, 100)) /\
  (truthy (label c) = false ->
   select_tag (PList (pre ++ c :: post)) = Ok (PStr "General Feedback", 100)).
Proof.
  intros Hc Hfm. rewrite (select_tag_top pre c post Hc Hfm). split.
  - intros -> Hs. f_equal. f_equal.
    destruct (label c) as [| | | |s| |]; try reflexivity.
    unfold priority_rank.
    now rewrite (index_from_not_in s PRIORITY_ORDER 0 (Hs s eq_refl)).
  - intros Ht. rewrite Ht. f_equal. f_equal.
    destruct (label c) as [| | | |s| |]; try reflexivity.
    simpl in Ht. apply negb_false_iff in Ht. apply String.eqb_eq in Ht. now subst.
Qed.

(** Sample candidates. *)
Definition cand (label : pyval) (score : Q) : pyval :=
  PDict [("label", label); ("score", PFloat score)].

Definition billing_urgent : list pyval :=
  [cand (PStr "Billing") (81 # 100); cand (PStr "Urgent") (65 # 100)].

Lemma cand_candidate (s : string) (x : Q) : candidate (cand (PStr s) x).
Proof.
  eexists. split; [reflexivity|]. split; [now exists x|exact I].
Qed.

Lemma select_tag_first_max_witness :
  exists pre c post,
    billing_urgent = (pre ++ c :: post)%list /\
    first_max score pre c post /\
    select_tag (PList billing_urgent) =
    Ok (if truthy (label c) then label c else PStr "General Feedback",
        priority_rank (label c)).
Proof.
  apply (select_tag_first_max billing_urgent).
  - discriminate.
  - repeat constructor; apply cand_candidate.
Defined.

Lemma select_tag_default_witness :
  select_tag (PList []) = Ok (PStr "General Feedback", 100).
Proof. apply (select_tag_default (PList [])). left. reflexivity. Defined.

(** C6 as stated fails: a top-scoring candidate whose label is [None]
    is answered with the default label, not with [None]. *)
Lemma select_tag_none_label :
  select_tag (PList [PDict [("label", PNone); ("score", PFloat (9 # 10))]])
  = Ok (PStr "General Feedback", 100) /\
  select_tag (PList [PDict [("label", PNone); ("score", PFloat (9 # 10))]])
  <> Ok (PNone, 100).
Proof. split; [reflexivity|discriminate]. Qed.

Lemma select_tag_unlisted_witness :
  select_tag (PList [cand (PStr "Spam") (9 # 10); cand (PStr "Urgent") (1 # 2)])
  = Ok (PStr "Spam", 100).
Proof.
  refine (proj1 (select_tag_unlisted [] (cand (PStr "Spam") (9 # 10))
                                     [cand (PStr "Urgent") (1 # 2)] _ _) _ _).
  - repeat constructor; apply cand_candidate.
  - split; repeat constructor. discriminate.
  - reflexivity.
  - intros s [= <-] Hin. simpl in Hin.
    repeat (destruct Hin as [Hin|Hin]; [discriminate Hin|]). exact Hin.
Defined.

(** The example of the specification: "Billing" at 0.81 wins over
    "Urgent" at 0.65 and has rank 1. *)
Example select_tag_billing :
  select_tag (PList billing_urgent) = Ok (PStr "Billing", 1).
Proof. reflexivity. Qed.

(** Equal scores: the candidate returned first wins. *)
Example select_tag_tie :
  select_tag (PList [cand (PStr "Praise") (1 # 2); cand (PStr "Urgent") (1 # 2)])
  = Ok (PStr "Praise", 5).
Proof. reflexivity. Qed.

End TagSelection.

(* ================================================================= *)
(** ** The view: shared facts *)

Module ViewFacts.
Import Py Env Views PyFacts.

Lemma bind_pure {A B} (a : A) (k : A -> M B) : bind (Ok a, []) k = k a.
Proof. unfold bind. now destruct (k a). Qed.

(** Replace a collaborator's call by its outcome and run the binds that
    now have a value to continue with. *)
Ltac step H := rewrite H; cbn beta iota.

(** The request is a POST whose JSON body is an object and whose text,
    [text_input], is a string with something other than whitespace. *)
Definition request_text (request : HttpRequest) (text_input : string) : Prop :=
  method request = "POST" /\
  exists d, body request = Ok (PDict d) /\
            dict_get d "text" (PStr "") = PStr text_input /\
            strip text_input <> "".

(** The two client calls return, and the HTTP call returns a response
    that [raise_for_status] accepts and whose body is the JSON [tags]. *)
Definition upstream_ok (w : World) (text_input : string)
           (summary : pyobject) (sentiment : hf_value) (tags : pyval) : Prop :=
  summarization w text_input MODEL_SUMMARIZATION = Ok summary /\
  text_classification w text_input MODEL_SENTIMENT = Ok sentiment /\
  exists response,
    requests_post w API_URL (headers w) (tags_payload text_input) = Ok response /\
    raise_for_status response = Ok tt /\
    json response = Ok tags.

(** The record returned to the caller, and the document handed to the
    store for it. *)
Definition record (summary : pyval) (sentiment : string) (tag : pyval) (rank : Z)
  : list (string * pyval) :=
  [("summary", summary); ("sentiment", PStr sentiment);
   ("tags", PList [tag]); ("priority_rank", PInt rank)].

Definition stored (r : list (string * pyval)) : document :=
  (map (fun '(k, v) => (k, Value v)) r ++ [("timestamp", SERVER_TIMESTAMP)])%list.

(** A successful analysis of [request], producing the record [r]. *)
Definition analysed (w : World) (request : HttpRequest) (text_input : string)
           (r : list (string * pyval)) : Prop :=
  exists summary sentiment tags processed_sentiment tag rank,
    request_text request text_input /\
    upstream_ok w text_input summary sentiment tags /\
    process_sentiment (str_title w) sentiment = Ok processed_sentiment /\
    select_tag tags = Ok (tag, rank) /\
    r = record (process_summary summary) processed_sentiment tag rank.

(** The status of the response, when the view returns one. *)
Definition status_of (r : result JsonResponse) : option Z :=
  match r with
  | Ok response => Some (status response)
  | Raise _ => None
  end.

(** The three outbound calls of an analysis, in order. *)
Definition inference_calls (w : World) (text_input : string) : list event :=
  [CallSummarization text_input MODEL_SUMMARIZATION;
   CallTextClassification text_input MODEL_SENTIMENT;
   CallPost API_URL (headers w) (tags_payload text_input)].

Lemma save_trace (w : World) (doc : document) :
  save w doc = (Ok tt, match db w with
                       | Some _ => [CallAdd tickets_ref doc]
                       | None => []
                       end).
Proof.
  unfold save. destruct (db w) as [add|]; [|reflexivity].
  unfold call, try_except. now destruct (add tickets_ref doc) as [[]|].
Qed.

(** Up to the three calls: what the body of the [try] does once the
    text has been accepted. *)
Lemma try_text (w : World) (request : HttpRequest) (text_input : string) :
  request_text request text_input ->
  analyze_feedback_try w request =
  bind (call (CallSummarization text_input MODEL_SUMMARIZATION)
             (summarization w text_input MODEL_SUMMARIZATION))
    (fun summary =>
       bind (call (CallTextClassification text_input MODEL_SENTIMENT)
                  (text_classification w text_input MODEL_SENTIMENT))
         (fun sentiment =>
            bind (query w (tags_payload text_input))
              (fun tags =>
                 bind (lift (process_sentiment (str_title w) sentiment))
                   (fun processed_sentiment =>
                      bind (lift (select_tag tags))
                        (fun selected =>
                           let '(processed_tag, processed_rank) := selected in
                           bind (save w (stored (record (process_summary summary)
                                                        processed_sentiment
                                                        processed_tag processed_rank)))
                             (fun _ =>
                                lift (json_response
                                        (dict_del "timestamp"
                                           (stored (record (process_summary summary)
                                                           processed_sentiment
                                                           processed_tag
                                                           processed_rank)))))))))).
Proof.
  intros (_ & d & Hb & Ht & Hs).
  unfold analyze_feedback_try. rewrite Hb. unfold lift at 1. rewrite bind_pure.
  cbn [py_get]. unfold lift at 1. rewrite bind_pure. rewrite Ht.
  apply String.eqb_neq in Hs. rewrite Hs. reflexivity.
Qed.

Lemma analysed_result (w : World) (request : HttpRequest) text_input r :
  analysed w request text_input r ->
  analyze_feedback w request =
  (Ok {| content := r; status := 200 |},
   (inference_calls w text_input ++
    match db w with
    | Some _ => [CallAdd tickets_ref (stored r)]
    | None => []
    end)%list).
Proof.
  intros (summary & sentiment & tags & ps & tag & rank & Hreq & Hup & Hps & Hsel & ->).
  destruct Hup as (Hsum & Hsent & response & Hpost & Hrfs & Hjson).
  unfold analyze_feedback. rewrite (proj1 Hreq). cbn [String.eqb Ascii.eqb Bool.eqb negb].
  rewrite (try_text w request text_input Hreq).
  unfold query, bind, call, lift.
  step Hsum. step Hsent. step Hpost. step Hrfs. step Hjson.
  step Hps. step Hsel. step save_trace.
  destruct (db w); reflexivity.
Qed.

(** [analysed] is what it takes for the body of the [try] to return the
    200 response: no other path through the view does. *)
Lemma analysed_complete (w : World) (request : HttpRequest)
      (response : JsonResponse) (calls : list event) :
  method request = "POST" ->
  analyze_feedback_try w request = (Ok response, calls) ->
  status response = 200 ->
  exists text_input, analysed w request text_input (content response).
Proof.
  intros Hm. unfold analyze_feedback_try, query, bind, call, lift.
  destruct (body request) as [data|e] eqn:Hb; [|discriminate].
  destruct data as [| | | | | |d]; try discriminate. cbn [py_get].
  destruct (dict_get d "text" (PStr "")) as [| | | |text_input| |] eqn:Ht;
    try discriminate.
  destruct (strip text_input =? "")%string eqn:Hs.
  { intros H Hst. injection H as <- _. discriminate Hst. }
  destruct (summarization w text_input MODEL_SUMMARIZATION) as [summary|]
    eqn:Hsum; [|discriminate].
  destruct (text_classification w text_input MODEL_SENTIMENT) as [sentiment|]
    eqn:Hsent; [|discriminate].
  destruct (requests_post w API_URL (headers w) (tags_payload text_input))
    as [resp|] eqn:Hpost; [|discriminate].
  destruct (raise_for_status resp) as [[]|] eqn:Hrfs; [|discriminate].
  destruct (json resp) as [tags|] eqn:Hjson; [|discriminate].
  destruct (process_sentiment (str_title w) sentiment) as [ps|] eqn:Hps; [|discriminate].
  destruct (select_tag tags) as [[tag rank]|] eqn:Hsel; [|discriminate].
  rewrite save_trace. cbn. intros H _. injection H as <- _.
  exists text_input, summary, sentiment, tags, ps, tag, rank.
  split.
  { split; [assumption|]. exists d. repeat split; try assumption.
    now apply String.eqb_neq. }
  split.
  { split; [assumption|]. split; [assumption|]. now exists resp. }
  repeat split; assumption.
Qed.

Lemma raise_for_status_error (r : Response) :
  400 <= status_code r < 600 ->
  exists msg, raise_for_status r = Raise (HTTPError (status_code r) (text r) msg).
Proof.
  intros [Hlo Hhi]. unfold raise_for_status.
  destruct (Z.leb_spec 400 (status_code r)); [|lia].
  destruct (Z.ltb_spec (status_code r) 500); cbn [andb]; [now eexists|].
  destruct (Z.leb_spec 500 (status_code r)); [|lia].
  destruct (Z.ltb_spec (status_code r) 600); [|lia]. now eexists.
Qed.

(** A world whose collaborators answer the same way whatever they are
    asked; used to run the view on concrete inputs.  The texts of these
    inputs are ASCII, for which [str.title] is [ascii_title]. *)
Definition world_of (summary : result pyobject) (sentiment : result hf_value)
           (response : result Response)
           (store : option (list string -> document -> result unit)) : World :=
  {| str_title := ascii_title;
     HF_API_TOKEN := "hf_token";
     summarization := fun _ _ => summary;
     text_classification := fun _ _ => sentiment;
     requests_post := fun _ _ _ => response;
     db := store |}.

Definition post (data : pyval) : HttpRequest :=
  {| method := "POST"; body := Ok data |}.

Definition refund_request : HttpRequest :=
  post (PDict [("text", PStr "This is unacceptable, I demand a refund now!")]).

Definition refund_summary : pyobject :=
  {| class_name := "SummarizationOutput"; is_truthy := true;
     attrs := [("summary_text", PStr "Customer demands a refund.")] |}.

Definition element (label score : pyval) : pyobject :=
  {| class_name := "TextClassificationOutputElement"; is_truthy := true;
     attrs := [("label", label); ("score", score)] |}.

Definition refund_sentiment : hf_value :=
  HFList [element (PStr "NEGATIVE") (PFloat (98 # 100));
          element (PStr "POSITIVE") (PFloat (2 # 100))].

Definition refund_tags : pyval :=
  PList [PDict [("label", PStr "Billing"); ("score", PFloat (81 # 100))];
         PDict [("label", PStr "Urgent"); ("score", PFloat (65 # 100))]].

Definition http_response (status_code : Z) (reason text : string)
           (json : result pyval) : Response :=
  {| status_code := status_code; reason := reason; url := API_URL;
     text := text; json := json |}.

Definition refund_response : Response :=
  http_response 200 "OK" "[...]" (Ok refund_tags).

Definition refund_record : list (string * pyval) :=
  record (PStr "Customer demands a refund.") "Negative" (PStr "Billing") 1.

Lemma refund_request_text :
  request_text refund_request "This is unacceptable, I demand a refund now!".
Proof.
  split; [reflexivity|]. eexists. split; [reflexivity|].
  split; [reflexivity|]. vm_compute. discriminate.
Qed.

Lemma refund_analysed store :
  analysed (world_of (Ok refund_summary) (Ok refund_sentiment)
                     (Ok refund_response) store)
           refund_request "This is unacceptable, I demand a refund now!"
           refund_record.
Proof.
  exists refund_summary, refund_sentiment, refund_tags, "Negative"%string,
         (PStr "Billing"), 1.
  split; [apply refund_request_text|].
  split.
  { split; [reflexivity|]. split; [reflexivity|].
    exists refund_response. repeat split. }
  repeat split.
Qed.

End ViewFacts.

(* ================================================================= *)
(** ** The view: input validation and upstream failures *)

Module Validation.
Import Py Env Views PyFacts ViewFacts.

Lemma stripped_text_rejected (w : World) (request : HttpRequest)
      (d : list (string * pyval)) (s : string) :
  method request = "POST" ->
  body request = Ok (PDict d) ->
  dict_get d "text" (PStr "") = PStr s ->
  strip s = "" ->
  analyze_feedback w request =
  (Ok (error_response "Text input cannot be empty" 400), []).
Proof.
  intros Hm Hb Ht Hs. unfold analyze_feedback. rewrite Hm.
  cbn [String.eqb Ascii.eqb Bool.eqb negb].
  unfold analyze_feedback_try. rewrite Hb. unfold lift at 1. rewrite bind_pure.
  cbn [py_get]. unfold lift at 1. rewrite bind_pure. rewrite Ht, Hs. reflexivity.
Qed.

(** C4.  A POST whose text is missing, empty or made of whitespace only
    is answered with the 400 "Text input cannot be empty" response, and
    no collaborator is called. *)
Theorem empty_text_rejected (w : World) (request : HttpRequest)
        (d : list (string * pyval)) :
  method request = "POST" ->
  body request = Ok (PDict d) ->
  lookup "text" d = None \/
  (exists s, lookup "text" d = Some (PStr s) /\ blank s) ->
  analyze_feedback w request =
  (Ok (error_response "Text input cannot be empty" 400), []).
Proof.
  intros Hm Hb [Ht|(s & Ht & Hs)].
  - apply (stripped_text_rejected w request d "" Hm Hb); [|reflexivity].
    unfold dict_get. now rewrite Ht.
  - apply (stripped_text_rejected w request d s Hm Hb); [|now apply strip_blank].
    unfold dict_get. now rewrite Ht.
Qed.

(** A text of a space, a no-break space (U+00A0) and an ideographic
    space (U+3000). *)
Definition spaces : string := bytes [32; 194; 160; 227; 128; 128]%nat.

Lemma empty_text_rejected_witness :
  analyze_feedback
    (world_of (Ok refund_summary) (Ok refund_sentiment) (Ok refund_response) None)
    (post (PDict [("text", PStr spaces)]))
  = (Ok (error_response "Text input cannot be empty" 400), []).
Proof.
  apply (empty_text_rejected _ (post (PDict [("text", PStr spaces)]))
                             [("text", PStr spaces)]).
  - reflexivity.
  - reflexivity.
  - right. exists spaces. split; [reflexivity|].
    apply (blank_cons (bytes [32]%nat) (bytes [194; 160; 227; 128; 128]%nat));
      [simpl; tauto|].
    apply (blank_cons (bytes [194; 160]%nat) (bytes [227; 128; 128]%nat));
      [simpl; tauto|].
    apply blank_one. simpl. tauto.
Defined.

(** C10 as stated fails: a body that parses to an object without a
    "text" field is not a JSON object with a string-valued "text", yet
    it is answered with the 400 empty-text response, not with 500. *)
Lemma object_without_text :
  analyze_feedback
    (world_of (Ok refund_summary) (Ok refund_sentiment) (Ok refund_response) None)
    (post (PDict []))
  = (Ok (error_response "Text input cannot be empty" 400), []) /\
  status_of (fst (analyze_feedback
                    (world_of (Ok refund_summary) (Ok refund_sentiment)
                              (Ok refund_response) None)
                    (post (PDict [])))) <> Some 500.
Proof. split; [reflexivity|discriminate]. Qed.

(** C10, as the code has it.  For a POST: a body that parses as JSON but
    is not an object, or is an object whose "text" is present and not a
    string, is answered with the generic 500 response; an object without
    "text" is answered with the 400 empty-text response; a body that does
    not parse is answered with the 400 invalid-JSON response.  None of
    these calls a collaborator, and a body that does parse is answered
    with the invalid-JSON response only after a collaborator was called. *)
Theorem malformed_body_responses (w : World) (request : HttpRequest) :
  method request = "POST" ->
  (forall v,
      body request = Ok v ->
      (forall d, v <> PDict d) \/
      (exists d x, v = PDict d /\ lookup "text" d = Some x /\ forall s, x <> PStr s) ->
      exists msg,
        analyze_feedback w request =
        (Ok (error_response ("An unexpected error occurred: " ++ msg) 500), [])) /\
  (forall d,
      body request = Ok (PDict d) -> lookup "text" d = None ->
      analyze_feedback w request =
      (Ok (error_response "Text input cannot be empty" 400), [])) /\
  (forall msg,
      body request = Raise (JSONDecodeError msg) ->
      analyze_feedback w request =
      (Ok (error_response "Invalid JSON in request body" 400), [])) /\
  (forall v,
      body request = Ok v ->
      fst (analyze_feedback w request)
      = Ok (error_response "Invalid JSON in request body" 400) ->
      snd (analyze_feedback w request) <> []).
Proof.
  intros Hm. split; [|split; [|split]].
  - intros v Hb Hv. unfold analyze_feedback. rewrite Hm.
    cbn [String.eqb Ascii.eqb Bool.eqb negb].
    unfold analyze_feedback_try. rewrite Hb. unfold lift at 1. rewrite bind_pure.
    destruct Hv as [Hv|(d & x & -> & Hx & Hs)].
    + exists (str_of_exn (no_attribute v "get")).
      destruct v; try reflexivity. exfalso. now apply (Hv d).
    + exists (str_of_exn (no_attribute x "strip")).
      cbn [py_get]. unfold lift at 1. rewrite bind_pure. unfold dict_get.
      rewrite Hx. destruct x; try reflexivity. exfalso. now apply (Hs s).
  - intros d Hb Ht. apply (stripped_text_rejected w request d "" Hm Hb); [|reflexivity].
    unfold dict_get. now rewrite Ht.
  - intros msg Hb. unfold analyze_feedback. rewrite Hm.
    cbn [String.eqb Ascii.eqb Bool.eqb negb].
    unfold analyze_feedback_try. rewrite Hb. reflexivity.
  - intros v Hb. unfold analyze_feedback. rewrite Hm.
    cbn [String.eqb Ascii.eqb Bool.eqb negb].
    destruct (analyze_feedback_try w request) as [r t] eqn:E.
    unfold analyze_feedback_try in E. rewrite Hb in E.
    unfold lift at 1 in E. rewrite bind_pure in E.
    destruct v as [| | | | | |d]; try (injection E as <- <-; discriminate).
    cbn [py_get] in E. unfold lift at 1 in E. rewrite bind_pure in E.
    destruct (dict_get d "text" (PStr "")) as [| | | |text_input| |];
      try (injection E as <- <-; discriminate).
    destruct (strip text_input =? "")%string;
      [injection E as <- <-; discriminate|].
    unfold bind at 1, call at 1 in E.
    destruct (summarization w text_input MODEL_SUMMARIZATION) as [summary|e].
    + match type of E with
      | (let (r, t') := ?k in _) = _ => destruct k
      end.
      injection E as <- <-. intros _. destruct r0; discriminate.
    + injection E as <- <-. discriminate.
Qed.

Lemma malformed_body_responses_witness :
  exists msg,
    analyze_feedback
      (world_of (Ok refund_summary) (Ok refund_sentiment) (Ok refund_response) None)
      (post (PDict [("text", PInt 5)]))
    = (Ok (error_response ("An unexpected error occurred: " ++ msg) 500), []).
Proof.
  refine (proj1 (malformed_body_responses _ (post (PDict [("text", PInt 5)])) _)
                (PDict [("text", PInt 5)]) _ _).
  - reflexivity.
  - reflexivity.
  - right. exists [("text", PInt 5)], (PInt 5).
    split; [reflexivity|]. split; [reflexivity|]. discriminate.
Defined.

(** C2 as stated fails: a 304 answer is not 2xx, but [raise_for_status]
    lets it through; its empty body then fails to decode and the caller
    gets the 400 invalid-JSON response, which carries neither the
    upstream status nor the upstream body. *)
Definition not_modified : Response :=
  http_response 304 "Not Modified" ""
                (Raise (JSONDecodeError "Expecting value: line 1 column 1 (char 0)")).

Lemma not_modified_not_propagated :
  fst (analyze_feedback
         (world_of (Ok refund_summary) (Ok refund_sentiment) (Ok not_modified) None)
         refund_request)
  = Ok (error_response "Invalid JSON in request body" 400) /\
  status_of (fst (analyze_feedback
                    (world_of (Ok refund_summary) (Ok refund_sentiment)
                              (Ok not_modified) None)
                    refund_request))
  <> Some (status_code not_modified).
Proof. split; [reflexivity|discriminate]. Qed.

(** C2, as the code has it.  When the zero-shot call answers with a 4xx
    or 5xx status, the caller gets an error response with that status
    whose message contains the upstream body; it holds nothing of the
    summary and the sentiment already obtained, and the store is not
    called. *)
Theorem zero_shot_error_propagated (w : World) (request : HttpRequest)
        (text_input : string) (summary : pyobject) (sentiment : hf_value)
        (response : Response) :
  request_text request text_input ->
  summarization w text_input MODEL_SUMMARIZATION = Ok summary ->
  text_classification w text_input MODEL_SENTIMENT = Ok sentiment ->
  requests_post w API_URL (headers w) (tags_payload text_input) = Ok response ->
  400 <= status_code response < 600 ->
  analyze_feedback w request =
  (Ok (error_response ("Hugging Face API Error: " ++ string_of_Z (status_code response)
                   ++ " - " ++ text response)
                  (status_code response)),
   inference_calls w text_input).
Proof.
  intros Hreq Hsum Hsent Hpost Hst.
  destruct (raise_for_status_error response Hst) as (msg & Hrfs).
  unfold analyze_feedback. rewrite (proj1 Hreq).
  cbn [String.eqb Ascii.eqb Bool.eqb negb].
  rewrite (try_text w request text_input Hreq).
  unfold query, bind, call, lift.
  step Hsum. step Hsent. step Hpost. step Hrfs. reflexivity.
Qed.

Definition unavailable : Response :=
  http_response 503 "Service Unavailable" "Model is loading" (Ok PNone).

Lemma zero_shot_error_propagated_witness :
  analyze_feedback
    (world_of (Ok refund_summary) (Ok refund_sentiment) (Ok unavailable) None)
    refund_request
  = (Ok (error_response "Hugging Face API Error: 503 - Model is loading" 503),
     inference_calls
       (world_of (Ok refund_summary) (Ok refund_sentiment) (Ok unavailable) None)
       "This is unacceptable, I demand a refund now!").
Proof.
  apply (zero_shot_error_propagated
           (world_of (Ok refund_summary) (Ok refund_sentiment) (Ok unavailable) None)
           refund_request "This is unacceptable, I demand a refund now!"
           refund_summary refund_sentiment unavailable).
  - apply refund_request_text.
  - reflexivity.
  - reflexivity.
  - reflexivity.
  - simpl. lia.
Defined.

End Validation.

(* ================================================================= *)
(** ** The view: the record, its defaults and its persistence *)

Module Analysis.
Import Py Env Views PyFacts SortFacts ViewFacts.

(** *** Summary *)






(** *** Persistence *)

(** C7.  For a successful analysis, when the store handle is not set or
    the write raises, the caller still receives the 200 response holding
    the record (summary, sentiment, tags, priority rank; no timestamp). *)
Theorem persistence_best_effort (w : World) (request : HttpRequest)
        (text_input : string) (r : list (string * pyval)) :
  analysed w request text_input r ->
  db w = None \/
  (exists add e, db w = Some add /\ add tickets_ref (stored r) = Raise e) ->
  fst (analyze_feedback w request) = Ok {| content := r; status := 200 |} /\
  keys r = ["summary"; "sentiment"; "tags"; "priority_rank"].
Proof.
  intros Ha _. rewrite (analysed_result w request text_input r Ha).
  split; [reflexivity|].
  destruct Ha as (? & ? & ? & ? & ? & ? & _ & _ & _ & _ & ->). reflexivity.
Qed.

Definition failing_store : option (list string -> document -> result unit) :=
  Some (fun _ _ => Raise (OtherException "503 Deadline Exceeded")).

Lemma persistence_best_effort_witness :
  fst (analyze_feedback
         (world_of (Ok refund_summary) (Ok refund_sentiment) (Ok refund_response)
                   failing_store)
         refund_request)
  = Ok {| content := refund_record; status := 200 |} /\
  keys refund_record = ["summary"; "sentiment"; "tags"; "priority_rank"].
Proof.
  apply (persistence_best_effort _ refund_request
           "This is unacceptable, I demand a refund now!" refund_record).
  - apply refund_analysed.
  - right. eexists. eexists. split; reflexivity.
Defined.

(** C8.  For a successful analysis the value returned has exactly the
    fields summary, sentiment, tags and priority_rank, tags being a list
    of one label; when the store handle is set one document is handed to
    it, and every document handed to it is the returned value with the
    timestamp field added. *)
Theorem response_shape (w : World) (request : HttpRequest)
        (text_input : string) (r : list (string * pyval)) :
  analysed w request text_input r ->
  exists response,
    fst (analyze_feedback w request) = Ok response /\
    let calls := snd (analyze_feedback w request) in
    keys (content response) = ["summary"; "sentiment"; "tags"; "priority_rank"] /\
    (exists tag, lookup "tags" (content response) = Some (PList [tag])) /\
    (forall path doc,
        In (CallAdd path doc) calls ->
        doc = (map (fun '(k, v) => (k, Value v)) (content response)
               ++ [("timestamp", SERVER_TIMESTAMP)])%list /\
        dumps (dict_del "timestamp" doc) = Ok (content response)) /\
    (db w <> None ->
     exists doc,
       calls = (inference_calls w text_input ++ [CallAdd tickets_ref doc])%list).
Proof.
  intros Ha. exists {| content := r; status := 200 |}.
  rewrite (analysed_result w request text_input r Ha).
  split; [reflexivity|]. cbv zeta. cbn [fst snd content].
  destruct Ha as (sm & st & tg & ps & tag & rank & _ & _ & _ & _ & ->).
  split; [reflexivity|]. split; [now exists tag|]. split.
  - intros path doc Hin. apply in_app_or in Hin. destruct Hin as [Hin|Hin].
    + simpl in Hin. destruct Hin as [H|[H|[H|[]]]]; discriminate H.
    + destruct (db w); [|contradiction].
      destruct Hin as [H|[]]. injection H as <- <-. split; reflexivity.
  - intros Hdb. destruct (db w); [|congruence]. now eexists.
Qed.

Definition refund_world : World :=
  world_of (Ok refund_summary) (Ok refund_sentiment) (Ok refund_response)
           failing_store.

Lemma response_shape_witness :
  exists response,
    fst (analyze_feedback refund_world refund_request) = Ok response /\
    let calls := snd (analyze_feedback refund_world refund_request) in
    keys (content response) = ["summary"; "sentiment"; "tags"; "priority_rank"] /\
    (exists tag, lookup "tags" (content response) = Some (PList [tag])) /\
    (forall path doc,
        In (CallAdd path doc) calls ->
        doc = (map (fun '(k, v) => (k, Value v)) (content response)
               ++ [("timestamp", SERVER_TIMESTAMP)])%list /\
        dumps (dict_del "timestamp" doc) = Ok (content response)) /\
    (db refund_world <> None ->
     exists doc,
       calls = (inference_calls refund_world
                                "This is unacceptable, I demand a refund now!"
                ++ [CallAdd tickets_ref doc])%list).
Proof.
  apply (response_shape refund_world refund_request
           "This is unacceptable, I demand a refund now!" refund_record).
  apply refund_analysed.
Defined.

(** *** Sentiment *)

(** The score of an element of the sentiment answer. *)
Definition sentiment_score (o : pyobject) : Q :=
  match lookup "score" (attrs o) with
  | Some k => match num_of k with Some x => x | None => 0%Q end
  | None => 0%Q
  end.

(** An element whose [score] is a number. *)
Definition scored (o : pyobject) : Prop :=
  exists k x, lookup "score" (attrs o) = Some k /\ num_of k = Some x.

Lemma scored_keyed (o : pyobject) :
  scored o -> keyed (fun x => getattr x "score") sentiment_score o.
Proof.
  intros (k & x & Hk & Hx). exists k. unfold getattr, sentiment_score.
  rewrite Hk, Hx. now split.
Qed.

Lemma process_sentiment_top (title : string -> string)
      (pre : list pyobject) c post (s : string) :
  Forall scored (pre ++ c :: post) ->
  first_max sentiment_score pre c post ->
  lookup "label" (attrs c) = Some (PStr s) ->
  process_sentiment title (HFList (pre ++ c :: post)) = Ok (title s).
Proof.
  intros Hc Hfm Hl.
  assert (Hk : Forall (keyed (fun x => getattr x "score") sentiment_score)
                      (pre ++ c :: post)).
  { eapply Forall_impl; [|exact Hc]. apply scored_keyed. }
  pose proof (py_max_first_max _ sentiment_score pre c post Hk Hfm) as Hmax.
  unfold process_sentiment.
  destruct (pre ++ c :: post)%list as [|x l] eqn:El.
  { destruct pre; discriminate. }
  rewrite Hmax. cbn [rbind]. unfold getattr. rewrite Hl. reflexivity.
Qed.

(** C9.  The code at a malformed sentiment answer: the only element
    has the label [None] (the field was missing upstream).  The claim
    asks for the sentiment "Neutral" and a successful analysis; line 146
    calls [top.label.title()] without a check, the [AttributeError]
    reaches the catch-all clause and the request ends in the generic
    500 response. *)
Lemma malformed_sentiment_fails :
  fst (analyze_feedback
         (world_of (Ok refund_summary)
                   (Ok (HFList [element PNone (PFloat (9 # 10))]))
                   (Ok refund_response) None)
         refund_request)
  = Ok (error_response
          "An unexpected error occurred: 'NoneType' object has no attribute 'title'"
          500).
Proof. reflexivity. Qed.

(** When the sentiment answer is a non-empty list of elements with
    numeric scores and the first element of maximal score has a string
    label, the sentiment of the record is [str.title] of that label;
    the labels of the other elements are not read.  When the answer is
    an empty list or is not a list, the sentiment is "Neutral".  In both
    cases the analysis succeeds. *)
Theorem sentiment_field (w : World) (request : HttpRequest) (text_input : string)
        (summary : pyobject) (sentiment : hf_value) (tags tag : pyval) (rank : Z) :
  request_text request text_input ->
  upstream_ok w text_input summary sentiment tags ->
  select_tag tags = Ok (tag, rank) ->
  (forall pre c post s,
      sentiment = HFList (pre ++ c :: post) ->
      Forall scored (pre ++ c :: post) ->
      first_max sentiment_score pre c post ->
      lookup "label" (attrs c) = Some (PStr s) ->
      fst (analyze_feedback w request) =
      Ok {| content := record (process_summary summary) (str_title w s) tag rank;
            status := 200 |}) /\
  (sentiment = HFList [] \/ (exists o, sentiment = HFObject o) ->
   fst (analyze_feedback w request) =
   Ok {| content := record (process_summary summary) "Neutral" tag rank;
         status := 200 |}).
Proof.
  intros Hreq Hup Hsel.
  assert (Hrec : forall ps, process_sentiment (str_title w) sentiment = Ok ps ->
                 fst (analyze_feedback w request) =
                 Ok {| content := record (process_summary summary) ps tag rank;
                       status := 200 |}).
  { intros ps Hps.
    rewrite (analysed_result w request text_input
               (record (process_summary summary) ps tag rank)); [reflexivity|].
    exists summary, sentiment, tags, ps, tag, rank. repeat split; try assumption;
      try apply Hreq; try apply Hup. }
  split.
  - intros pre c post s -> Hc Hfm Hl. apply Hrec.
    now apply process_sentiment_top.
  - intros [->|(o & ->)]; apply Hrec; reflexivity.
Qed.

(** The element of maximal score decides alone: here the second
    element has no label at all. *)
Definition positive_and_unlabelled : hf_value :=
  HFList [element (PStr "POSITIVE") (PFloat (9 # 10));
          element PNone (PFloat (1 # 10))].

Lemma sentiment_field_witness :
  fst (analyze_feedback
         (world_of (Ok refund_summary) (Ok positive_and_unlabelled)
                   (Ok refund_response) None)
         refund_request) =
  Ok {| content := record (process_summary refund_summary) "Positive"
                          (PStr "Billing") 1;
        status := 200 |}.
Proof.
  refine (proj1 (sentiment_field
                   (world_of (Ok refund_summary) (Ok positive_and_unlabelled)
                             (Ok refund_response) None)
                   refund_request
                   "This is unacceptable, I demand a refund now!"
                   refund_summary positive_and_unlabelled refund_tags
                   (PStr "Billing") 1 _ _ _)
                [] (element (PStr "POSITIVE") (PFloat (9 # 10)))
                [element PNone (PFloat (1 # 10))] "POSITIVE"%string
                _ _ _ _).
  - apply refund_request_text.
  - split; [reflexivity|]. split; [reflexivity|].
    exists refund_response. repeat split.
  - reflexivity.
  - reflexivity.
  - repeat constructor; eexists; eexists; repeat split; reflexivity.
  - split; repeat constructor. discriminate.
  - reflexivity.
Defined.

Example ascii_title_negative : ascii_title "NEGATIVE" = "Negative".
Proof. reflexivity. Qed.

End Analysis.

(* ================================================================= *)
(** ** The view: every path through [analyze_feedback] *)

Module Paths.
Import Py Env Views PyFacts ViewFacts.

(** A response built by one of the error paths: the single field
    "error". *)
Definition is_error (r : JsonResponse) : Prop :=
  exists message code, r = error_response message code.

(** How a request that is not a successful analysis ends: with an
    error response, or with the exception the [HTTPError] clause raises
    when the error has no response. *)
Definition failed (r : result JsonResponse) : Prop :=
  (exists response, r = Ok response /\ is_error response) \/
  r = Raise (AttributeError "'NoneType' object has no attribute 'status_code'").

Lemma analyze_feedback_except_failed (e : exn) : failed (analyze_feedback_except e).
Proof.
  destruct e; try (left; eexists; split; [reflexivity|now eexists; eexists]).
  right. reflexivity.
Qed.

Definition working_store : option (list string -> document -> result unit) :=
  Some (fun _ _ => Ok tt).

Definition failing_store_handle : option (list string -> document -> result unit) :=
  Some (fun _ _ => Raise (OtherException "503 Deadline Exceeded")).

Definition refund_world_ok : World :=
  world_of (Ok refund_summary) (Ok refund_sentiment) (Ok refund_response)
           working_store.

Ltac stops_after text n :=
  left; split;
  [ first [ apply analyze_feedback_except_failed
          | left; eexists; split; [reflexivity|now eexists; eexists] ]
  | exists text, n; reflexivity ].

(** Either the request fails after some initial part of the three
    inference calls, or it is a successful analysis. *)
Lemma analyze_feedback_cases (w : World) (request : HttpRequest) :
  (failed (fst (analyze_feedback w request)) /\
   exists text_input n,
     snd (analyze_feedback w request) = firstn n (inference_calls w text_input)) \/
  (exists text_input r, analysed w request text_input r).
Proof.
  unfold analyze_feedback.
  destruct (method request =? "POST")%string eqn:Hm; cbn [negb];
    [|stops_after ""%string 0%nat].
  apply String.eqb_eq in Hm.
  unfold analyze_feedback_try, query, bind, call, lift.
  destruct (body request) as [data|e] eqn:Hb; [|stops_after ""%string 0%nat].
  destruct data as [| | | | | |d]; try stops_after ""%string 0%nat.
  cbn [py_get].
  destruct (dict_get d "text" (PStr "")) as [| | | |text_input| |] eqn:Ht;
    try stops_after ""%string 0%nat.
  destruct (strip text_input =? "")%string eqn:Hs; [stops_after ""%string 0%nat|].
  destruct (summarization w text_input MODEL_SUMMARIZATION) as [summary|]
    eqn:Hsum; [|stops_after text_input 1%nat].
  destruct (text_classification w text_input MODEL_SENTIMENT) as [sentiment|]
    eqn:Hsent; [|stops_after text_input 2%nat].
  destruct (requests_post w API_URL (headers w) (tags_payload text_input))
    as [resp|] eqn:Hpost; [|stops_after text_input 3%nat].
  destruct (raise_for_status resp) as [[]|] eqn:Hrfs; [|stops_after text_input 3%nat].
  destruct (json resp) as [tags|] eqn:Hjson; [|stops_after text_input 3%nat].
  destruct (process_sentiment (str_title w) sentiment) as [ps|] eqn:Hps;
    [|stops_after text_input 3%nat].
  destruct (select_tag tags) as [[tag rank]|] eqn:Hsel;
    [|stops_after text_input 3%nat].
  right. exists text_input, (record (process_summary summary) ps tag rank).
  exists summary, sentiment, tags, ps, tag, rank.
  split.
  { split; [assumption|]. exists d. repeat split; try assumption.
    now apply String.eqb_neq. }
  split.
  { split; [assumption|]. split; [assumption|]. now exists resp. }
  repeat split; assumption.
Qed.

Lemma no_add_in_inference_calls (w : World) (text_input : string) (n : nat)
      (path : list string) (doc : document) :
  ~ In (CallAdd path doc) (firstn n (inference_calls w text_input)).
Proof.
  intros H. destruct n as [|[|[|[|n]]]]; simpl in H;
    repeat (destruct H as [H|H]; [discriminate H|]); exact H.
Qed.

(** Whenever the view returns a response, its content is either the
    single field "error" or the four fields of the record: an error
    response never carries part of an analysis.  The view returns no
    response only by raising the [AttributeError] of line 199, on an
    [HTTPError] that has no response. *)
Theorem response_fields (w : World) (request : HttpRequest) :
  (forall response,
      fst (analyze_feedback w request) = Ok response ->
      keys (content response) = ["error"] \/
      keys (content response) = ["summary"; "sentiment"; "tags"; "priority_rank"]) /\
  (forall e,
      fst (analyze_feedback w request) = Raise e ->
      e = AttributeError "'NoneType' object has no attribute 'status_code'").
Proof.
  destruct (analyze_feedback_cases w request)
    as [[[(r' & Hr & m & c & ->)|Hr] _]|(t & r & Ha)].
  - rewrite Hr. split; [|discriminate]. intros response [= <-]. now left.
  - rewrite Hr. split; [discriminate|]. now intros e [= <-].
  - rewrite (analysed_result w request t r Ha). cbn [fst].
    split; [|discriminate]. intros response [= <-]. right.
    destruct Ha as (? & ? & ? & ? & ? & ? & _ & _ & _ & _ & ->). reflexivity.
Qed.

(** An inference client that times out raises an [HTTPError] without
    response: the view then raises instead of answering. *)
Example timeout_not_answered :
  analyze_feedback
    (world_of (Raise (HTTPError_without_response "Inference call timed out"))
              (Ok refund_sentiment) (Ok refund_response) None)
    refund_request
  = (Raise (AttributeError "'NoneType' object has no attribute 'status_code'"),
     [CallSummarization "This is unacceptable, I demand a refund now!"
                        MODEL_SUMMARIZATION]).
Proof. reflexivity. Qed.

(** The store is called only for a successful analysis and only when
    the handle is set; the document is then the returned record with
    the timestamp, written under the demo user's tickets. *)
Theorem store_only_on_success (w : World) (request : HttpRequest)
        (path : list string) (doc : document) :
  In (CallAdd path doc) (snd (analyze_feedback w request)) ->
  db w <> None /\
  path = tickets_ref /\
  exists text_input r,
    analysed w request text_input r /\
    fst (analyze_feedback w request) = Ok {| content := r; status := 200 |} /\
    doc = stored r.
Proof.
  intros Hin.
  destruct (analyze_feedback_cases w request) as [[_ (t & n & Hn)]|(t & r & Ha)].
  - rewrite Hn in Hin. now apply no_add_in_inference_calls in Hin.
  - rewrite (analysed_result w request t r Ha) in *. cbn [fst snd] in *.
    apply in_app_or in Hin. destruct Hin as [Hin|Hin].
    + now apply (no_add_in_inference_calls w t 3) in Hin.
    + destruct (db w); [|contradiction]. destruct Hin as [H|[]].
      injection H as <- <-. split; [discriminate|]. split; [reflexivity|].
      now exists t, r.
Qed.

Lemma store_only_on_success_witness :
  db refund_world_ok <> None /\
  tickets_ref = tickets_ref /\
  exists text_input r,
    analysed refund_world_ok refund_request text_input r /\
    fst (analyze_feedback refund_world_ok refund_request)
    = Ok {| content := r; status := 200 |} /\
    stored refund_record = stored r.
Proof.
  apply (store_only_on_success refund_world_ok refund_request
           tickets_ref (stored refund_record)).
  right. right. right. left. reflexivity.
Defined.

(** Collaborators are called in a fixed order, each at most once: the
    calls of any request are an initial part of summarization, sentiment,
    zero-shot, store. *)
Theorem calls_in_order (w : World) (request : HttpRequest) :
  exists text_input doc n,
    snd (analyze_feedback w request)
    = firstn n (inference_calls w text_input ++ [CallAdd tickets_ref doc]).
Proof.
  destruct (analyze_feedback_cases w request) as [[_ (t & n & Hn)]|(t & r & Ha)].
  - exists t, [], (Nat.min n 3). rewrite Hn.
    destruct n as [|[|[|[|n]]]]; reflexivity.
  - exists t, (stored r). rewrite (analysed_result w request t r Ha). cbn [snd].
    destruct (db w).
    + exists 4%nat. reflexivity.
    + exists 3%nat. reflexivity.
Qed.

(** What the view answers when one of the three calls raises [e]. *)
Lemma call_raises (w : World) (request : HttpRequest) (text_input : string) (e : exn) :
  request_text request text_input ->
  (summarization w text_input MODEL_SUMMARIZATION = Raise e ->
   analyze_feedback w request =
   (analyze_feedback_except e, firstn 1 (inference_calls w text_input))) /\
  (forall summary,
      summarization w text_input MODEL_SUMMARIZATION = Ok summary ->
      text_classification w text_input MODEL_SENTIMENT = Raise e ->
      analyze_feedback w request =
      (analyze_feedback_except e, firstn 2 (inference_calls w text_input))) /\
  (forall summary sentiment,
      summarization w text_input MODEL_SUMMARIZATION = Ok summary ->
      text_classification w text_input MODEL_SENTIMENT = Ok sentiment ->
      requests_post w API_URL (headers w) (tags_payload text_input) = Raise e ->
      analyze_feedback w request =
      (analyze_feedback_except e, inference_calls w text_input)).
Proof.
  intros Hreq.
  assert (Hview : analyze_feedback w request
                  = try_except (analyze_feedback_try w request) analyze_feedback_except).
  { unfold analyze_feedback. now rewrite (proj1 Hreq). }
  rewrite Hview, (try_text w request text_input Hreq).
  unfold query, bind, call, lift. repeat split.
  - intros H. step H. reflexivity.
  - intros summary H1 H2. step H1. step H2. reflexivity.
  - intros summary sentiment H1 H2 H3. step H1. step H2. step H3. reflexivity.
Qed.

(** A call that raises ends the request: the calls that would follow
    are not made, the store is not called, and the response is the one
    the [except] clauses give for the exception. *)
Theorem failing_call_stops (w : World) (request : HttpRequest)
        (text_input : string) (e : exn) :
  request_text request text_input ->
  (summarization w text_input MODEL_SUMMARIZATION = Raise e ->
   analyze_feedback w request =
   (analyze_feedback_except e,
    [CallSummarization text_input MODEL_SUMMARIZATION])) /\
  (forall summary,
      summarization w text_input MODEL_SUMMARIZATION = Ok summary ->
      text_classification w text_input MODEL_SENTIMENT = Raise e ->
      analyze_feedback w request =
      (analyze_feedback_except e,
       [CallSummarization text_input MODEL_SUMMARIZATION;
        CallTextClassification text_input MODEL_SENTIMENT])) /\
  (forall summary sentiment,
      summarization w text_input MODEL_SUMMARIZATION = Ok summary ->
      text_classification w text_input MODEL_SENTIMENT = Ok sentiment ->
      requests_post w API_URL (headers w) (tags_payload text_input) = Raise e ->
      analyze_feedback w request =
      (analyze_feedback_except e,
       [CallSummarization text_input MODEL_SUMMARIZATION;
        CallTextClassification text_input MODEL_SENTIMENT;
        CallPost API_URL (headers w) (tags_payload text_input)])).
Proof. intros Hreq. exact (call_raises w request text_input e Hreq). Qed.

Definition sentiment_down : World :=
  world_of (Ok refund_summary) (Raise (OtherException "Read timed out."))
           (Ok refund_response) failing_store_handle.

Lemma failing_call_stops_witness :
  analyze_feedback sentiment_down refund_request =
  (Ok (error_response "An unexpected error occurred: Read timed out." 500),
   [CallSummarization "This is unacceptable, I demand a refund now!"
                      MODEL_SUMMARIZATION;
    CallTextClassification "This is unacceptable, I demand a refund now!"
                           MODEL_SENTIMENT]).
Proof.
  refine (proj1 (proj2 (failing_call_stops sentiment_down refund_request
                          "This is unacceptable, I demand a refund now!"
                          (OtherException "Read timed out.") _))
                refund_summary _ _).
  - apply refund_request_text.
  - reflexivity.
  - reflexivity.
Defined.

(** The [HTTPError] clause is not specific to the zero-shot call: an
    [HTTPError] raised by the summarization or the sentiment call is
    reported the same way, with the status and the body it carries. *)
Theorem client_http_error_reported (w : World) (request : HttpRequest)
        (text_input : string) (code : Z) (body_text msg : string) :
  request_text request text_input ->
  summarization w text_input MODEL_SUMMARIZATION
  = Raise (HTTPError code body_text msg) \/
  (exists summary,
      summarization w text_input MODEL_SUMMARIZATION = Ok summary /\
      text_classification w text_input MODEL_SENTIMENT
      = Raise (HTTPError code body_text msg)) ->
  fst (analyze_feedback w request) =
  Ok (error_response
        ("Hugging Face API Error: " ++ string_of_Z code ++ " - " ++ body_text)
        code).
Proof.
  intros Hreq H.
  destruct (call_raises w request text_input (HTTPError code body_text msg) Hreq)
    as (H1 & H2 & _).
  destruct H as [H|(summary & Hs & H)].
  - now rewrite (H1 H).
  - now rewrite (H2 summary Hs H).
Qed.

Definition summarization_overloaded : World :=
  world_of (Raise (HTTPError 429 "Rate limit reached" "429 Client Error"))
           (Ok refund_sentiment) (Ok refund_response) failing_store_handle.

Lemma client_http_error_reported_witness :
  fst (analyze_feedback summarization_overloaded refund_request) =
  Ok (error_response "Hugging Face API Error: 429 - Rate limit reached" 429).
Proof.
  apply (client_http_error_reported summarization_overloaded refund_request
           "This is unacceptable, I demand a refund now!"
           429 "Rate limit reached" "429 Client Error").
  - apply refund_request_text.
  - left. reflexivity.
Defined.

(** Any method other than POST is answered 405 before the body is
    looked at, and nothing is called. *)
Theorem only_post_allowed (w : World) (request : HttpRequest) :
  method request <> "POST" ->
  analyze_feedback w request =
  (Ok (error_response "Only POST requests are allowed" 405), []).
Proof.
  intros H. unfold analyze_feedback.
  apply String.eqb_neq in H. now rewrite H.
Qed.

Lemma only_post_allowed_witness :
  analyze_feedback refund_world_ok
                   {| method := "GET"; body := Raise (JSONDecodeError "") |}
  = (Ok (error_response "Only POST requests are allowed" 405), []).
Proof.
  apply (only_post_allowed refund_world_ok
           {| method := "GET"; body := Raise (JSONDecodeError "") |}).
  discriminate.
Defined.

(** For a POST whose JSON object has a string text: no collaborator is
    called exactly when the text is blank; otherwise the first call is
    the summarization, and it receives the text as sent, not stripped. *)
Theorem calls_iff_text (w : World) (request : HttpRequest)
        (d : list (string * pyval)) (s : string) :
  method request = "POST" ->
  body request = Ok (PDict d) ->
  dict_get d "text" (PStr "") = PStr s ->
  (blank s <-> snd (analyze_feedback w request) = []) /\
  (~ blank s ->
   exists rest, snd (analyze_feedback w request)
                = CallSummarization s MODEL_SUMMARIZATION :: rest).
Proof.
  intros Hm Hb Ht.
  assert (Hcalls : strip s <> "" ->
                   exists rest, snd (analyze_feedback w request)
                                = CallSummarization s MODEL_SUMMARIZATION :: rest).
  { intros Hs.
    assert (Hreq : request_text request s).
    { split; [assumption|]. now exists d. }
    unfold analyze_feedback. rewrite Hm. cbn [String.eqb Ascii.eqb Bool.eqb negb].
    rewrite (try_text w request s Hreq). unfold bind at 1, call at 1.
    destruct (summarization w s MODEL_SUMMARIZATION).
    - match goal with
      | |- context [let (r, t') := ?k in _] => destruct k as [r t']
      end.
      exists t'. now destruct r.
    - now exists []. }
  split; [split|].
  - intros Hblank.
    rewrite (Validation.stripped_text_rejected w request d s Hm Hb Ht
               (strip_blank s Hblank)).
    reflexivity.
  - intros Hnil. apply strip_empty_iff.
    destruct (String.eqb_spec (strip s) "") as [E|E]; [assumption|].
    destruct (Hcalls E) as (rest & Hrest). congruence.
  - intros Hnb. apply Hcalls. intros E. apply Hnb. now apply strip_empty_iff.
Qed.

Lemma calls_iff_text_witness :
  (blank "  ok  " <->
   snd (analyze_feedback refund_world_ok (post (PDict [("text", PStr "  ok  ")]))) = [])
  /\
  (~ blank "  ok  " ->
   exists rest,
     snd (analyze_feedback refund_world_ok (post (PDict [("text", PStr "  ok  ")])))
     = CallSummarization "  ok  " MODEL_SUMMARIZATION :: rest).
Proof.
  apply (calls_iff_text refund_world_ok (post (PDict [("text", PStr "  ok  ")]))
                        [("text", PStr "  ok  ")] "  ok  ").
  - reflexivity.
  - reflexivity.
  - reflexivity.
Defined.

(** The response does not depend on the store: two worlds that differ
    only in the store handle (unset, failing or working) give the same
    response, or raise the same exception, for every request. *)
Theorem response_ignores_store (w1 w2 : World) (request : HttpRequest) :
  str_title w1 = str_title w2 ->
  HF_API_TOKEN w1 = HF_API_TOKEN w2 ->
  summarization w1 = summarization w2 ->
  text_classification w1 = text_classification w2 ->
  requests_post w1 = requests_post w2 ->
  fst (analyze_feedback w1 request) = fst (analyze_feedback w2 request).
Proof.
  destruct w1 as [title1 token sum1 cls1 post1 db1],
           w2 as [title2 token2 sum2 cls2 post2 db2].
  cbn [str_title HF_API_TOKEN summarization text_classification requests_post].
  intros <- <- <- <- <-.
  unfold analyze_feedback.
  destruct (negb (method request =? "POST")%string); [reflexivity|].
  unfold analyze_feedback_try, query, bind, call, lift, headers.
  cbn [str_title HF_API_TOKEN summarization text_classification requests_post].
  destruct (body request) as [data|e]; [|reflexivity].
  destruct data as [| | | | | |d]; try reflexivity. cbn [py_get].
  destruct (dict_get d "text" (PStr "")) as [| | | |text_input| |]; try reflexivity.
  destruct (strip text_input =? "")%string; [reflexivity|].
  destruct (sum1 text_input MODEL_SUMMARIZATION) as [summary|]; [|reflexivity].
  destruct (cls1 text_input MODEL_SENTIMENT) as [sentiment|]; [|reflexivity].
  destruct (post1 API_URL [("Authorization", "Bearer " ++ token)]
                  (tags_payload text_input)) as [resp|]; [|reflexivity].
  destruct (raise_for_status resp) as [[]|]; [|reflexivity].
  destruct (json resp) as [tags|]; [|reflexivity].
  destruct (process_sentiment title1 sentiment); [|reflexivity].
  destruct (select_tag tags) as [[tag rank]|]; [|reflexivity].
  rewrite !save_trace. reflexivity.
Qed.

Lemma response_ignores_store_witness :
  fst (analyze_feedback refund_world_ok refund_request)
  = fst (analyze_feedback
           (world_of (Ok refund_summary) (Ok refund_sentiment) (Ok refund_response)
                     None)
           refund_request).
Proof.
  apply (response_ignores_store refund_world_ok
           (world_of (Ok refund_summary) (Ok refund_sentiment) (Ok refund_response)
                     None)
           refund_request); reflexivity.
Defined.

End Paths.

(* ================================================================= *)
(** ** The priority table and the ranks the selection returns *)

Module Ranking.
Import Py Views PyFacts SortFacts TagSelection.

Lemma index_from_nth (s : string) (l : list string) (k i : Z) :
  index_from k s l = Some i ->
  k <= i < k + Z.of_nat (List.length l) /\
  nth_error l (Z.to_nat (i - k)) = Some s.
Proof.
  revert k. induction l as [|x l IH]; intros k; simpl; [discriminate|].
  destruct (String.eqb_spec s x) as [->|_].
  - intros [= <-]. rewrite Z.sub_diag. split; [lia|reflexivity].
  - intros H. destruct (IH _ H) as [Hr Hn]. split; [lia|].
    replace (Z.to_nat (i - k)) with (S (Z.to_nat (i - (k + 1)))) by lia.
    exact Hn.
Qed.

Lemma nth_index_from (s : string) (l : list string) (k : Z) (n : nat) :
  NoDup l -> nth_error l n = Some s -> index_from k s l = Some (k + Z.of_nat n).
Proof.
  intros Hnd. revert k n. induction Hnd as [|x l Hx Hnd IH]; intros k n.
  - destruct n; discriminate.
  - destruct n as [|n]; simpl.
    + intros [= ->]. rewrite String.eqb_refl. f_equal. lia.
    + intros Hn. destruct (String.eqb_spec s x) as [->|_].
      * exfalso. apply Hx. eapply nth_error_In. exact Hn.
      * rewrite (IH (k + 1) n Hn). f_equal. lia.
Qed.

Lemma PRIORITY_ORDER_NoDup : NoDup PRIORITY_ORDER.
Proof.
  unfold PRIORITY_ORDER.
  repeat (constructor;
          [simpl; intros H;
           repeat (destruct H as [H|H]; [discriminate H|]); exact H|]).
  constructor.
Qed.

Lemma PRIORITY_MAP_get_str (s : string) :
  PRIORITY_MAP_get (PStr s) 100
  = Ok (match index_from 0 s PRIORITY_ORDER with Some i => i | None => 100 end).
Proof. exact (PRIORITY_MAP_get_rank (PStr s) I). Qed.

(** Position to rank: the label at position [n] of [PRIORITY_ORDER] has
    rank [n]; ranks therefore grow strictly along the order and no two
    listed labels share one. *)
Theorem rank_of_position (n : nat) (label : string) :
  nth_error PRIORITY_ORDER n = Some label ->
  PRIORITY_MAP_get (PStr label) 100 = Ok (Z.of_nat n).
Proof.
  intros Hn. rewrite PRIORITY_MAP_get_str.
  now rewrite (nth_index_from label PRIORITY_ORDER 0 n PRIORITY_ORDER_NoDup Hn).
Qed.

Lemma rank_of_position_witness :
  PRIORITY_MAP_get (PStr "Bug Report") 100 = Ok (Z.of_nat 3).
Proof. apply (rank_of_position 3 "Bug Report"). reflexivity. Defined.

(** The labels the classifier is asked to choose from are exactly the
    labels whose rank is below the sentinel 100. *)
Theorem classifier_labels_ranked (s : string) :
  In s CLASSIFIER_LABELS <->
  exists rank, PRIORITY_MAP_get (PStr s) 100 = Ok rank /\ 0 <= rank < 7.
Proof.
  rewrite PRIORITY_MAP_get_str. split.
  - intros Hin. change CLASSIFIER_LABELS with PRIORITY_ORDER in Hin.
    apply In_nth_error in Hin. destruct Hin as (n & Hn).
    rewrite (nth_index_from s PRIORITY_ORDER 0 n PRIORITY_ORDER_NoDup Hn).
    exists (Z.of_nat n). split; [reflexivity|].
    assert (Hlen : (n < List.length PRIORITY_ORDER)%nat).
    { apply nth_error_Some. rewrite Hn. discriminate. }
    simpl in Hlen. lia.
  - intros (rank & Hr & Hlt).
    destruct (index_from 0 s PRIORITY_ORDER) as [i|] eqn:E.
    + apply index_from_nth in E. destruct E as [_ E].
      change CLASSIFIER_LABELS with PRIORITY_ORDER. eapply nth_error_In. exact E.
    + injection Hr as <-. lia.
Qed.

(** Whatever the zero-shot answer, when the selection returns a rank
    other than 100 the returned tag is the label at that position of
    [PRIORITY_ORDER]; the only other rank is 100. *)
Theorem select_tag_rank (tags tag : pyval) (rank : Z) :
  select_tag tags = Ok (tag, rank) ->
  rank = 100 \/
  (0 <= rank < 7 /\
   exists s, tag = PStr s /\ nth_error PRIORITY_ORDER (Z.to_nat rank) = Some s).
Proof.
  unfold select_tag.
  destruct tags as [| | | | |l|]; try (intros [= <- <-]; now left).
  destruct l as [|x l]; [intros [= <- <-]; now left|].
  destruct x; try (intros [= <- <-]; now left).
  destruct (list_sort_reverse score_key _) as [sorted|]; [|discriminate].
  cbn [rbind]. destruct sorted as [|tags_0 ?]; [discriminate|].
  destruct (py_get tags_0 "label" PNone) as [top_tag|]; [|discriminate].
  cbn [rbind]. destruct (truthy top_tag); [|intros [= <- <-]; now left].
  destruct top_tag as [| | | |s| |]; cbn [PRIORITY_MAP_get rbind];
    try discriminate; try (intros [= <- <-]; now left).
  fold PRIORITY_MAP. intros H.
  change (rbind (PRIORITY_MAP_get (PStr s) 100) (fun r => Ok (PStr s, r))
          = Ok (tag, rank)) in H.
  rewrite PRIORITY_MAP_get_str in H. cbn [rbind] in H.
  destruct (index_from 0 s PRIORITY_ORDER) as [i|] eqn:E;
    injection H as <- <-; [|now left].
  right. apply index_from_nth in E. destruct E as [Hr Hn].
  rewrite Z.sub_0_r in Hn. split; [simpl in Hr; lia|]. now exists s.
Qed.

Lemma select_tag_rank_witness :
  1 = 100 \/
  (0 <= 1 < 7 /\
   exists s, PStr "Billing" = PStr s /\
             nth_error PRIORITY_ORDER (Z.to_nat 1) = Some s).
Proof.
  apply (select_tag_rank (PList billing_urgent) (PStr "Billing") 1). reflexivity.
Defined.

(** Only the first element is checked to be a dict: a later element of
    another type makes the selection raise [AttributeError] when the
    scores are read. *)
Lemma compute_keys_not_dict (pre : list pyval) (x : pyval) (post : list pyval) :
  Forall (fun c => exists d, c = PDict d) pre ->
  (forall d, x <> PDict d) ->
  compute_keys score_key (pre ++ x :: post) = Raise (no_attribute x "get").
Proof.
  intros Hpre Hx. induction Hpre as [|c pre (d & ->) _ IH]; simpl.
  - destruct x; try reflexivity. exfalso. now apply (Hx d).
  - now rewrite IH.
Qed.

Theorem select_tag_later_not_dict (d : list (string * pyval))
        (pre : list pyval) (x : pyval) (post : list pyval) :
  Forall (fun c => exists d', c = PDict d') pre ->
  (forall d', x <> PDict d') ->
  select_tag (PList (PDict d :: pre ++ x :: post)) = Raise (no_attribute x "get").
Proof.
  intros Hpre Hx.
  assert (Hk : compute_keys score_key (PDict d :: pre ++ x :: post)
               = Raise (no_attribute x "get")).
  { apply (compute_keys_not_dict (PDict d :: pre) x post); [|assumption].
    constructor; [now exists d|assumption]. }
  unfold select_tag, list_sort_reverse. rewrite Hk. reflexivity.
Qed.

Lemma select_tag_later_not_dict_witness :
  select_tag (PList (PDict [("label", PStr "Urgent")] :: [] ++ PStr "Billing" :: []))
  = Raise (AttributeError "'str' object has no attribute 'get'").
Proof.
  apply (select_tag_later_not_dict [("label", PStr "Urgent")] [] (PStr "Billing") []).
  - constructor.
  - discriminate.
Defined.

(** A single candidate is selected without any comparison, so its score
    may be of any type. *)
Theorem select_tag_single (d : list (string * pyval)) :
  hashable (dict_get d "label" PNone) ->
  select_tag (PList [PDict d]) =
  Ok (if truthy (dict_get d "label" PNone) then dict_get d "label" PNone
      else PStr "General Feedback",
      priority_rank (dict_get d "label" PNone)).
Proof.
  intros Hh. unfold select_tag, list_sort_reverse. cbn [compute_keys score_key py_get rbind sort_desc insert_desc map snd].
  destruct (truthy (dict_get d "label" PNone)) eqn:Et.
  - now rewrite (PRIORITY_MAP_get_rank _ Hh).
  - f_equal. f_equal.
    destruct (dict_get d "label" PNone) as [| | | |s| |]; try reflexivity;
      try contradiction.
    simpl in Et. apply negb_false_iff in Et. apply String.eqb_eq in Et. now subst.
Qed.

Lemma select_tag_single_witness :
  select_tag (PList [PDict [("label", PStr "Praise"); ("score", PStr "high")]])
  = Ok (PStr "Praise", 5).
Proof.
  apply (select_tag_single [("label", PStr "Praise"); ("score", PStr "high")]).
  exact I.
Defined.

(** A missing score counts as 0, but a score that is present and null
    does not: with two candidates the comparison of [None] with the
    other score raises [TypeError]. *)
Theorem select_tag_null_score (d1 d2 : list (string * pyval)) :
  dict_get d1 "score" (PInt 0) = PNone ->
  select_tag (PList [PDict d1; PDict d2]) =
  Raise (not_supported "<" PNone (dict_get d2 "score" (PInt 0))).
Proof.
  intros H. unfold select_tag, list_sort_reverse.
  cbn [compute_keys score_key py_get rbind sort_desc insert_desc map snd fst].
  rewrite H. reflexivity.
Qed.

Lemma select_tag_null_score_witness :
  select_tag (PList [PDict [("label", PStr "Urgent"); ("score", PNone)];
                     PDict [("label", PStr "Billing"); ("score", PFloat (1 # 2))]])
  = Raise (TypeError "'<' not supported between instances of 'NoneType' and 'float'").
Proof.
  apply (select_tag_null_score [("label", PStr "Urgent"); ("score", PNone)]
                               [("label", PStr "Billing"); ("score", PFloat (1 # 2))]).
  reflexivity.
Defined.

End Ranking.

(* ================================================================= *)
(** ** [sort_by_priority] *)

From Stdlib Require Import Permutation Sorted.

Module Priority.
Import Py Views PyFacts SortFacts TagSelection.

(** *** [sorted(l, key=...)]

    The keys of all elements are computed first; the elements are then
    arranged by increasing key, elements with equal keys keeping their
    original order, with [<] as the only comparison on keys. *)
Section Sorted.
Context {A : Type}.

Fixpoint insert_asc (x : pyval * A) (l : list (pyval * A))
  : result (list (pyval * A)) :=
  match l with
  | [] => Ok [x]
  | y :: l' =>
      lt <-- py_lt (fst y) (fst x);
      if lt : bool then (r <-- insert_asc x l'; Ok (y :: r))
      else Ok (x :: y :: l')
  end.

Fixpoint sort_asc (l : list (pyval * A)) : result (list (pyval * A)) :=
  match l with
  | [] => Ok []
  | x :: l' => s <-- sort_asc l'; insert_asc x s
  end.

Definition sorted (key : A -> result pyval) (l : list A) : result (list A) :=
  ks <-- compute_keys key l;
  s <-- sort_asc ks;
  Ok (map snd s).
End Sorted.

(** [lambda tag: PRIORITY_MAP.get(tag, 100)] *)
Definition priority_key (tag : pyval) : result pyval :=
  rank <-- PRIORITY_MAP_get tag 100; Ok (PInt rank).

(** Lines 74-79. *)
Definition sort_by_priority (tag_list : list pyval) : result (list pyval) :=
  sorted priority_key tag_list.

(** *** Facts *)

Lemma py_lt_int (a b : Z) : py_lt (PInt a) (PInt b) = Ok (a <? b).
Proof.
  unfold py_lt. cbn [py_compare num_of rbind]. unfold Qcompare. simpl.
  rewrite !Z.mul_1_r. unfold Z.ltb. now destruct (a ?= b).
Qed.

(** The insertion the sort performs, on tags whose keys are their
    ranks. *)
Fixpoint place (x : pyval) (l : list pyval) : list pyval :=
  match l with
  | [] => [x]
  | y :: l' =>
      if priority_rank y <? priority_rank x then y :: place x l' else x :: y :: l'
  end.

Fixpoint arrange (l : list pyval) : list pyval :=
  match l with
  | [] => []
  | x :: l' => place x (arrange l')
  end.

Definition ranked (l : list pyval) : list (pyval * pyval) :=
  map (fun t => (PInt (priority_rank t), t)) l.

Lemma compute_keys_ranked (l : list pyval) :
  Forall hashable l -> compute_keys priority_key l = Ok (ranked l).
Proof.
  induction 1 as [|x l Hx _ IH]; [reflexivity|].
  cbn [compute_keys]. unfold priority_key at 1.
  rewrite (PRIORITY_MAP_get_rank x Hx). cbn [rbind]. now rewrite IH.
Qed.

Lemma insert_asc_ranked (x : pyval) (l : list pyval) :
  insert_asc (PInt (priority_rank x), x) (ranked l) = Ok (ranked (place x l)).
Proof.
  induction l as [|y l IH]; [reflexivity|].
  change (ranked (y :: l)) with ((PInt (priority_rank y), y) :: ranked l).
  cbn [insert_asc fst place]. rewrite py_lt_int. cbn [rbind].
  destruct (priority_rank y <? priority_rank x); [|reflexivity].
  now rewrite IH.
Qed.

Lemma sort_asc_ranked (l : list pyval) :
  sort_asc (ranked l) = Ok (ranked (arrange l)).
Proof.
  induction l as [|x l IH]; [reflexivity|].
  change (ranked (x :: l)) with ((PInt (priority_rank x), x) :: ranked l).
  cbn [sort_asc arrange]. rewrite IH. cbn [rbind]. apply insert_asc_ranked.
Qed.

Lemma sort_by_priority_arrange (l : list pyval) :
  Forall hashable l -> sort_by_priority l = Ok (arrange l).
Proof.
  intros H. unfold sort_by_priority, sorted.
  rewrite (compute_keys_ranked l H). cbn [rbind]. rewrite sort_asc_ranked.
  cbn [rbind]. f_equal. unfold ranked. rewrite map_map. apply map_id.
Qed.

Definition by_rank (a b : pyval) : Prop := priority_rank a <= priority_rank b.

Lemma place_perm (x : pyval) (l : list pyval) : Permutation (x :: l) (place x l).
Proof.
  induction l as [|y l IH]; simpl; [reflexivity|].
  destruct (priority_rank y <? priority_rank x); [|reflexivity].
  rewrite perm_swap. now constructor.
Qed.

Lemma arrange_perm (l : list pyval) : Permutation l (arrange l).
Proof.
  induction l as [|x l IH]; simpl; [constructor|].
  rewrite <- place_perm. now constructor.
Qed.

Lemma place_sorted (x : pyval) (l : list pyval) :
  StronglySorted by_rank l -> StronglySorted by_rank (place x l).
Proof.
  induction 1 as [|y l Hs IH Hy]; simpl.
  - constructor; constructor.
  - destruct (Z.ltb_spec (priority_rank y) (priority_rank x)) as [Hlt|Hge].
    + constructor; [assumption|].
      rewrite Forall_forall in *. intros z Hz.
      apply (Permutation_in _ (Permutation_sym (place_perm x l))) in Hz.
      destruct Hz as [<-|Hz]; [unfold by_rank; lia|now apply Hy].
    + constructor; [now constructor|].
      constructor; [exact Hge|].
      eapply Forall_impl; [|exact Hy]. unfold by_rank. intros z Hz. lia.
Qed.

Lemma arrange_sorted (l : list pyval) : StronglySorted by_rank (arrange l).
Proof.
  induction l as [|x l IH]; simpl; [constructor|]. now apply place_sorted.
Qed.

Lemma place_filter (rank : Z) (x : pyval) (l : list pyval) :
  filter (fun t => priority_rank t =? rank) (place x l)
  = filter (fun t => priority_rank t =? rank) (x :: l).
Proof.
  induction l as [|y l IH]; [reflexivity|].
  cbn [place].
  destruct (Z.ltb_spec (priority_rank y) (priority_rank x)) as [Hlt|Hge];
    [|reflexivity].
  cbn [filter] in *. rewrite IH.
  destruct (Z.eqb_spec (priority_rank y) rank), (Z.eqb_spec (priority_rank x) rank);
    try reflexivity.
  lia.
Qed.

Lemma arrange_filter (rank : Z) (l : list pyval) :
  filter (fun t => priority_rank t =? rank) (arrange l)
  = filter (fun t => priority_rank t =? rank) l.
Proof.
  induction l as [|x l IH]; [reflexivity|].
  cbn [arrange]. rewrite place_filter. cbn [filter]. now rewrite IH.
Qed.

Lemma place_sorted_head (x : pyval) (l : list pyval) :
  Forall (by_rank x) l -> place x l = x :: l.
Proof.
  intros H. destruct l as [|y l]; [reflexivity|].
  simpl. apply Forall_inv in H. unfold by_rank in H.
  destruct (Z.ltb_spec (priority_rank y) (priority_rank x)); [lia|reflexivity].
Qed.

Lemma arrange_sorted_id (l : list pyval) :
  StronglySorted by_rank l -> arrange l = l.
Proof.
  induction 1 as [|x l _ IH Hx]; [reflexivity|].
  simpl. rewrite IH. now apply place_sorted_head.
Qed.

Lemma priority_rank_le_100 (t : pyval) : priority_rank t <= 100.
Proof.
  destruct t as [| | | |s| |]; simpl; try lia.
  change (match index_from 0 s PRIORITY_ORDER with Some i => i | None => 100 end
          <= 100).
  destruct (index_from 0 s PRIORITY_ORDER) as [i|] eqn:E; [|lia].
  apply Ranking.index_from_nth in E. simpl in E. lia.
Qed.

Lemma sorted_split (l : list pyval) :
  StronglySorted by_rank l ->
  l = (filter (fun t => priority_rank t <? 100) l
       ++ filter (fun t => priority_rank t =? 100) l)%list.
Proof.
  induction 1 as [|x l _ IH Hx]; [reflexivity|].
  cbn [filter].
  destruct (Z.ltb_spec (priority_rank x) 100) as [Hlt|Hge].
  - destruct (Z.eqb_spec (priority_rank x) 100); [lia|].
    simpl. now rewrite <- IH.
  - assert (Hall : Forall (fun t => priority_rank t = 100) l).
    { eapply Forall_impl; [|exact Hx]. unfold by_rank. intros t Ht.
      pose proof (priority_rank_le_100 t). lia. }
    destruct (Z.eqb_spec (priority_rank x) 100) as [_|Hne];
      [|pose proof (priority_rank_le_100 x); lia].
    assert (Hnone : filter (fun t => priority_rank t <? 100) l = []).
    { clear - Hall. induction Hall as [|t l Ht _ IH]; [reflexivity|].
      simpl. rewrite Ht. exact IH. }
    assert (Hsame : filter (fun t => priority_rank t =? 100) l = l).
    { clear - Hall. induction Hall as [|t l Ht _ IH]; [reflexivity|].
      simpl. rewrite Ht. simpl. now rewrite IH. }
    now rewrite Hnone, Hsame.
Qed.

Definition sample_tags : list pyval :=
  [PStr "Praise"; PStr "Spam"; PStr "Urgent"; PStr "Other"; PStr "Billing"].

Lemma sample_tags_hashable : Forall hashable sample_tags.
Proof. repeat constructor. Qed.

(** For tags that can be hashed (strings in particular)
    [sort_by_priority] returns the same tags, rearranged so that ranks
    never decrease. *)
Theorem sort_by_priority_sorts (tag_list : list pyval) :
  Forall hashable tag_list ->
  exists l, sort_by_priority tag_list = Ok l /\
            Permutation tag_list l /\
            StronglySorted by_rank l.
Proof.
  intros H. exists (arrange tag_list).
  split; [now apply sort_by_priority_arrange|].
  split; [apply arrange_perm|apply arrange_sorted].
Qed.

Lemma sort_by_priority_sorts_witness :
  exists l, sort_by_priority sample_tags = Ok l /\
            Permutation sample_tags l /\
            StronglySorted by_rank l.
Proof. apply (sort_by_priority_sorts sample_tags). apply sample_tags_hashable. Defined.

(** The sort is stable: tags of equal rank come out in the order they
    came in. *)
Theorem sort_by_priority_stable (tag_list : list pyval) :
  Forall hashable tag_list ->
  exists l, sort_by_priority tag_list = Ok l /\
            forall rank,
              filter (fun t => priority_rank t =? rank) l
              = filter (fun t => priority_rank t =? rank) tag_list.
Proof.
  intros H. exists (arrange tag_list).
  split; [now apply sort_by_priority_arrange|].
  intros rank. apply arrange_filter.
Qed.

Lemma sort_by_priority_stable_witness :
  exists l, sort_by_priority sample_tags = Ok l /\
            forall rank,
              filter (fun t => priority_rank t =? rank) l
              = filter (fun t => priority_rank t =? rank) sample_tags.
Proof. apply (sort_by_priority_stable sample_tags). apply sample_tags_hashable. Defined.

(** Tags that are not in the map are moved to the bottom: the result is
    the listed tags followed by the unlisted ones, the latter in their
    original order. *)
Theorem sort_by_priority_unlisted_last (tag_list : list pyval) :
  Forall hashable tag_list ->
  exists listed,
    sort_by_priority tag_list
    = Ok (listed ++ filter (fun t => priority_rank t =? 100) tag_list)%list /\
    Forall (fun t => priority_rank t < 100) listed.
Proof.
  intros H.
  exists (filter (fun t => priority_rank t <? 100) (arrange tag_list)).
  split.
  - rewrite (sort_by_priority_arrange tag_list H). f_equal.
    rewrite <- (arrange_filter 100 tag_list).
    apply sorted_split, arrange_sorted.
  - apply Forall_forall. intros t Ht. apply filter_In in Ht.
    destruct Ht as [_ Ht]. now apply Z.ltb_lt.
Qed.

Lemma sort_by_priority_unlisted_last_witness :
  exists listed,
    sort_by_priority sample_tags
    = Ok (listed ++ filter (fun t => priority_rank t =? 100) sample_tags)%list /\
    Forall (fun t => priority_rank t < 100) listed.
Proof.
  apply (sort_by_priority_unlisted_last sample_tags). apply sample_tags_hashable.
Defined.

Example sort_by_priority_sample :
  sort_by_priority sample_tags
  = Ok [PStr "Urgent"; PStr "Billing"; PStr "Praise"; PStr "Spam"; PStr "Other"].
Proof. reflexivity. Qed.

(** Sorting twice is sorting once. *)
Theorem sort_by_priority_idempotent (tag_list l : list pyval) :
  Forall hashable tag_list ->
  sort_by_priority tag_list = Ok l ->
  sort_by_priority l = Ok l.
Proof.
  intros H Hs. rewrite (sort_by_priority_arrange tag_list H) in Hs.
  injection Hs as <-.
  assert (Hh : Forall hashable (arrange tag_list)).
  { rewrite Forall_forall in *. intros t Ht. apply H.
    apply (Permutation_in _ (Permutation_sym (arrange_perm tag_list))). exact Ht. }
  rewrite (sort_by_priority_arrange _ Hh). f_equal.
  apply arrange_sorted_id, arrange_sorted.
Qed.

Lemma sort_by_priority_idempotent_witness :
  sort_by_priority
    [PStr "Urgent"; PStr "Billing"; PStr "Praise"; PStr "Spam"; PStr "Other"]
  = Ok [PStr "Urgent"; PStr "Billing"; PStr "Praise"; PStr "Spam"; PStr "Other"].
Proof.
  apply (sort_by_priority_idempotent sample_tags).
  - apply sample_tags_hashable.
  - reflexivity.
Defined.

(** A tag that cannot be hashed (a list or a dict) makes the sort raise
    [TypeError] when its key is looked up. *)
Theorem sort_by_priority_unhashable (pre : list pyval) (x : pyval) (post : list pyval) :
  Forall hashable pre ->
  ~ hashable x ->
  sort_by_priority (pre ++ x :: post)
  = Raise (TypeError ("unhashable type: '" ++ type_name x ++ "'")).
Proof.
  intros Hpre Hx. unfold sort_by_priority, sorted.
  assert (Hk : compute_keys priority_key (pre ++ x :: post)
               = Raise (TypeError ("unhashable type: '" ++ type_name x ++ "'"))).
  { induction Hpre as [|y pre Hy _ IH].
    - destruct x; try (exfalso; apply Hx; exact I); reflexivity.
    - cbn [app compute_keys]. unfold priority_key at 1.
      rewrite (PRIORITY_MAP_get_rank y Hy). cbn [rbind]. now rewrite IH. }
  now rewrite Hk.
Qed.

Lemma sort_by_priority_unhashable_witness :
  sort_by_priority ([PStr "Urgent"] ++ PList [PStr "Billing"] :: [PStr "Praise"])
  = Raise (TypeError "unhashable type: 'list'").
Proof.
  apply (sort_by_priority_unhashable [PStr "Urgent"] (PList [PStr "Billing"])
                                     [PStr "Praise"]).
  - repeat constructor.
  - intros H. exact H.
Defined.

End Priority.


(* ================================================================= *)
(** ** Firebase set-up (module level, lines 35-57) *)

Module Firebase.
Import Py Env Views ViewFacts.

(** What the [except] clauses of the set-up tell apart: [ValueError],
    and any other [Exception]. *)
Inductive startup_exn : Type :=
| ValueError (msg : string)
| StartupError (msg : string).

Inductive outcome (A : Type) : Type :=
| Returns (a : A)
| Raises (e : startup_exn).
Arguments Returns {A} a.
Arguments Raises {A} e.

Definition handle : Type := list string -> document -> result unit.

(** The environment at import time: the outcome of each step of the
    [try] block, in order: building the path of the key file, asking
    whether it exists, and the three SDK calls.  [client_again] is the
    call of [firestore.client()] made in the [except ValueError] clause. *)
Record Startup : Type := {
  key_path : outcome string;
  key_path_exists : outcome bool;
  Certificate : outcome unit;
  initialize_app : outcome unit;
  client : outcome handle;
  client_again : outcome handle
}.

(** The module after import: [db] and what was printed; or the import
    itself failed with an exception. *)
Inductive module_state : Type :=
| Loaded (db : option handle) (printed : list string)
| ImportFails (e : startup_exn) (printed : list string).

Definition warning (key_path : string) : list string :=
  ["!!!!!!!!!!!!!!!!!!!!!!!!! WARNING !!!!!!!!!!!!!!!!!!!!!!!!!!";
   "serviceAccountKey.json not found at " ++ key_path;
   "The dashboard will not work until the file is placed correctly.";
   "!!!!!!!!!!!!!!!!!!!!!!!!!!!!!!!!!!!!!!!!!!!!!!!!!!!!!!!!!!!!"].

(** Lines 37-49, the [try] block: its outcome and what it printed. *)
Definition initialise (s : Startup) : outcome handle * list string :=
  match key_path s with
  | Raises e => (Raises e, [])
  | Returns key_path =>
      match key_path_exists s with
      | Raises e => (Raises e, [])
      | Returns found =>
          let printed := if found then [] else warning key_path in
          match Certificate s with
          | Raises e => (Raises e, printed)
          | Returns _ =>
              match initialize_app s with
              | Raises e => (Raises e, printed)
              | Returns _ =>
                  match client s with
                  | Raises e => (Raises e, printed)
                  | Returns db =>
                      (Returns db,
                       (printed ++ ["Firebase Admin SDK initialized successfully."])%list)
                  end
              end
          end
      end
  end.

(** Lines 35-57. *)
Definition setup (s : Startup) : module_state :=
  match initialise s with
  | (Returns db, printed) => Loaded (Some db) printed
  | (Raises (ValueError _), printed) =>
      let printed := (printed ++ ["Firebase Admin SDK already initialized."])%list in
      match client_again s with
      | Returns db => Loaded (Some db) printed
      | Raises e => ImportFails e printed
      end
  | (Raises (StartupError msg), printed) =>
      Loaded None (printed ++ ["Error initializing Firebase Admin SDK: " ++ msg])
  end.

(** The handle the view sees. *)
Definition db_of (m : module_state) : option handle :=
  match m with
  | Loaded db _ => db
  | ImportFails _ _ => None
  end.

(** A step that raises anything but [ValueError] does not stop the
    import: the module loads with [db] unset and the failure is printed
    last. *)
Theorem startup_error_tolerated (s : Startup) (msg : string) :
  fst (initialise s) = Raises (StartupError msg) ->
  exists printed,
    setup s = Loaded None (printed ++ ["Error initializing Firebase Admin SDK: " ++ msg]).
Proof.
  intros H. unfold setup. destruct (initialise s) as [r printed].
  cbn [fst] in H. rewrite H. now exists printed.
Qed.

Definition no_key_file : Startup :=
  {| key_path := Returns "/app/serviceAccountKey.json";
     key_path_exists := Returns false;
     Certificate := Raises (StartupError "No such file or directory");
     initialize_app := Returns tt;
     client := Returns (fun _ _ => Ok tt);
     client_again := Returns (fun _ _ => Ok tt) |}.

Lemma startup_error_tolerated_witness :
  exists printed,
    setup no_key_file
    = Loaded None (printed ++ ["Error initializing Firebase Admin SDK: "
                               ++ "No such file or directory"]).
Proof.
  apply (startup_error_tolerated no_key_file "No such file or directory").
  reflexivity.
Defined.

(** [db] is set to a handle exactly when every step of the [try] block
    succeeds, or one of them raises [ValueError] and the second
    [firestore.client()] succeeds. *)
Theorem db_set_iff (s : Startup) (h : handle) :
  (exists printed, setup s = Loaded (Some h) printed) <->
  fst (initialise s) = Returns h \/
  (exists msg, fst (initialise s) = Raises (ValueError msg) /\
               client_again s = Returns h).
Proof.
  unfold setup. destruct (initialise s) as [r p]. cbn [fst]. split.
  - intros (printed & H).
    destruct r as [h'|[msg|msg]].
    + left. now injection H as -> _.
    + right. exists msg. split; [reflexivity|].
      destruct (client_again s); [now injection H as -> _|discriminate].
    + discriminate.
  - intros [H|(msg & H & Hc)]; rewrite H; [|rewrite Hc]; now eexists.
Qed.

(** The import fails only in one way: a [ValueError] in the [try] block
    followed by a second [firestore.client()] that raises; the exception
    is the one of that second call. *)
Theorem import_fails_iff (s : Startup) (e : startup_exn) :
  (exists printed, setup s = ImportFails e printed) <->
  exists msg, fst (initialise s) = Raises (ValueError msg) /\
              client_again s = Raises e.
Proof.
  unfold setup. destruct (initialise s) as [r p]. cbn [fst]. split.
  - intros (printed & H).
    destruct r as [h'|[msg|msg]]; try discriminate.
    exists msg. split; [reflexivity|].
    destruct (client_again s); [discriminate|now injection H as -> _].
  - intros (msg & H & Hc). rewrite H, Hc. now eexists.
Qed.

(** A key file that is missing is only warned about: the certificate is
    still loaded and the rest of the set-up runs, so [db] and a failure
    of the import are what they would be had the file been reported
    present. *)
Theorem missing_key_only_warns (s : Startup) (found : bool) :
  key_path_exists s = Returns found ->
  let s' := {| key_path := key_path s; key_path_exists := Returns true;
               Certificate := Certificate s; initialize_app := initialize_app s;
               client := client s; client_again := client_again s |} in
  fst (initialise s) = fst (initialise s') /\
  db_of (setup s) = db_of (setup s').
Proof.
  intros H. cbv zeta. unfold setup, initialise.
  cbn [key_path key_path_exists Certificate initialize_app client client_again].
  rewrite H.
  destruct (key_path s) as [kp|[m|m]],
           (Certificate s) as [[]|[m1|m1]],
           (initialize_app s) as [[]|[m2|m2]],
           (client s) as [h|[m3|m3]],
           (client_again s) as [h'|e'];
    split; reflexivity.
Qed.

Lemma missing_key_only_warns_witness :
  fst (initialise no_key_file)
  = fst (initialise
           {| key_path := key_path no_key_file; key_path_exists := Returns true;
              Certificate := Certificate no_key_file;
              initialize_app := initialize_app no_key_file;
              client := client no_key_file;
              client_again := client_again no_key_file |}) /\
  db_of (setup no_key_file)
  = db_of (setup
             {| key_path := key_path no_key_file; key_path_exists := Returns true;
                Certificate := Certificate no_key_file;
                initialize_app := initialize_app no_key_file;
                client := client no_key_file;
                client_again := client_again no_key_file |}).
Proof. apply (missing_key_only_warns no_key_file false). reflexivity. Defined.

(** After a set-up that left [db] unset, no request reaches the store. *)
Theorem no_store_when_unset (s : Startup) (w : World) (request : HttpRequest)
        (msg : string) :
  fst (initialise s) = Raises (StartupError msg) ->
  db w = db_of (setup s) ->
  forall path doc, ~ In (CallAdd path doc) (snd (analyze_feedback w request)).
Proof.
  intros H Hdb path doc Hin.
  unfold setup in Hdb. destruct (initialise s) as [out printed].
  cbn [fst] in H. rewrite H in Hdb. cbn [db_of] in Hdb.
  destruct (Paths.analyze_feedback_cases w request) as [[_ (t & n & Hn)]|(t & r & Ha)].
  - rewrite Hn in Hin. now apply Paths.no_add_in_inference_calls in Hin.
  - rewrite (analysed_result w request t r Ha), Hdb in Hin. cbn [snd] in Hin.
    rewrite app_nil_r in Hin.
    now apply (Paths.no_add_in_inference_calls w t 3) in Hin.
Qed.

Lemma no_store_when_unset_witness :
  ~ In (CallAdd tickets_ref (stored refund_record))
       (snd (analyze_feedback
               (world_of (Ok refund_summary) (Ok refund_sentiment)
                         (Ok refund_response) (db_of (setup no_key_file)))
               refund_request)).
Proof.
  refine (no_store_when_unset no_key_file
           (world_of (Ok refund_summary) (Ok refund_sentiment)
                     (Ok refund_response) (db_of (setup no_key_file)))
           refund_request "No such file or directory" _ _
           tickets_ref (stored refund_record)).
  - reflexivity.
  - reflexivity.
Defined.

End Firebase.

(* ================================================================= *)
(** ** [core/urls.py] and the two page views *)

Module Urls.
Import Py Env Views ViewFacts.

(** What a view hands back: a rendered template or a JSON response. *)
Inductive HttpResponse : Type :=
| render (request : HttpRequest) (template_name : string)
| Json (response : JsonResponse).

(** Lines 60-70 of [views.py]. *)
Definition index (request : HttpRequest) : HttpResponse :=
  render request "core/index.html".
Definition dashboard (request : HttpRequest) : HttpResponse :=
  render request "core/dashboard.html".

(** A view as the URL configuration sees it: given the world and the
    request, the response (or the exception raised) and the calls made
    to collaborators. *)
Definition view : Type := World -> HttpRequest -> M HttpResponse.

Record pattern : Type := path {
  route : string;
  target : view;
  name : string
}.

(** [urlpatterns] of [core/urls.py]. *)
Definition urlpatterns : list pattern :=
  [path "" (fun _ request => ret (index request)) "index";
   path "api/analyze/"
        (fun w request =>
           match analyze_feedback w request with
           | (Ok response, calls) => (Ok (Json response), calls)
           | (Raise e, calls) => (Raise e, calls)
           end)
        "analyze_feedback";
   path "dashboard/" (fun _ request => ret (dashboard request)) "dashboard"].

(** Django's resolver is not part of this repository; what is used of
    it here is its documented behaviour for a list of [path()] entries
    whose routes have no converters: the patterns are tried in order,
    and a pattern matches when the path left to resolve (the part of the
    URL after the leading "/" and after the prefix under which the
    project includes this list) is equal to its route. *)
Fixpoint resolve_in (patterns : list pattern) (p : string) : option pattern :=
  match patterns with
  | [] => None
  | pat :: rest => if (route pat =? p)%string then Some pat else resolve_in rest p
  end.

Definition resolve (p : string) : option pattern := resolve_in urlpatterns p.

(** Serving a path: [None] stands for "no pattern matches". *)
Definition dispatch (w : World) (p : string) (request : HttpRequest)
  : option (M HttpResponse) :=
  match resolve p with
  | Some pat => Some (target pat w request)
  | None => None
  end.

(** Only the path of the analysis endpoint can reach a collaborator:
    every other path that is served renders a template and calls
    nothing. *)
Theorem pages_call_nothing (w : World) (p : string) (request : HttpRequest)
        (response : result HttpResponse) (calls : list event) :
  p <> "api/analyze/" ->
  dispatch w p request = Some (response, calls) ->
  calls = [] /\ exists template_name, response = Ok (render request template_name).
Proof.
  intros Hp. unfold dispatch, resolve, urlpatterns. cbn [resolve_in route].
  destruct (String.eqb_spec "" p) as [_|_].
  { intros [= <- <-]. split; [reflexivity|now eexists]. }
  destruct (String.eqb_spec "api/analyze/" p) as [E|_]; [now subst|].
  destruct (String.eqb_spec "dashboard/" p) as [_|_]; [|discriminate].
  intros [= <- <-]. split; [reflexivity|now eexists].
Qed.

Lemma pages_call_nothing_witness :
  ([] : list event) = [] /\
  exists template_name,
    Ok (render refund_request "core/dashboard.html")
    = Ok (render refund_request template_name).
Proof.
  apply (pages_call_nothing Paths.refund_world_ok "dashboard/" refund_request
                            (Ok (render refund_request "core/dashboard.html")) []).
  - discriminate.
  - reflexivity.
Defined.

End Urls.
